(** * Bootstrap of the native runtime: src/Native/Bootstrap/main.cpp

  A shallow embedding of the startup code of the runtime: the module
  registry (section bookends or active registration), the runtime
  initializer ([__initialize_runtime], [main]), the raw object layout
  accessors ([Array::GetArrayLength], [Array::GetArrayData],
  [PrintStringObject]) and the unimplemented-feature stubs.

  Conventions.
  - Machine integers are [Z] with the conversions written out
    ([to_int32], [to_uint32]).
  - Addresses are [Z]; memory is a total map from addresses to bytes and
    multi-byte loads are little-endian (x86, x64, ARM).
  - External routines (the PAL, the runtime library, the managed entry
    point) are fields of an environment record; every call to one of them
    is recorded in a trace of events, in program order.
  - C++ control effects ([throw], [exit], an out-of-bounds access) are the
    constructors of [outcome]. *)

From Stdlib Require Import ZArith List String Ascii Bool Lia.
From Stdlib.Strings Require Import Byte.
From Equations Require Import Equations.
Import ListNotations.

#[local] Open Scope Z_scope.

(** ** Machine integers *)

Module MachInt.

(** Conversion to [int32_t] (two's complement wrap-around). *)
Definition to_int32 (z : Z) : Z := (z + 2 ^ 31) mod 2 ^ 32 - 2 ^ 31.

(** Conversion to [uint32_t]. *)
Definition to_uint32 (z : Z) : Z := z mod 2 ^ 32.

Definition INT32_MIN : Z := - 2 ^ 31.
Definition INT32_MAX : Z := 2 ^ 31 - 1.

Definition in_int32 (z : Z) : Prop := INT32_MIN <= z <= INT32_MAX.

End MachInt.
Import MachInt.

(** ** Byte-addressed memory *)

Module Mem.

Definition addr := Z.
Definition memory := addr -> byte.

Definition byte_to_Z (b : byte) : Z := Z.of_N (Byte.to_N b).

Definition byte_of_Z (z : Z) : byte :=
  match Byte.of_N (Z.to_N (z mod 256)) with
  | Some b => b
  | None => x00
  end.

(** Little-endian load of [n] bytes at [a], as an unsigned number. *)
Fixpoint load_le (m : memory) (a : addr) (n : nat) : Z :=
  match n with
  | O => 0
  | S k => byte_to_Z (m a) + 256 * load_le m (a + 1) k
  end.

(** Little-endian store of the low [n] bytes of [v] at [a]. *)
Fixpoint store_le (m : memory) (a : addr) (n : nat) (v : Z) : memory :=
  match n with
  | O => m
  | S k =>
      let m' := store_le m (a + 1) k (v / 256) in
      fun x => if x =? a then byte_of_Z v else m' x
  end.

(** [*(uint16_t * )a] *)
Definition load_uint16 (m : memory) (a : addr) : Z := load_le m a 2.

(** [*(int32_t * )a] *)
Definition load_int32 (m : memory) (a : addr) : Z := to_int32 (load_le m a 4).

(** [*(void ** )a], for pointers of [psz] bytes. *)
Definition load_ptr (psz : Z) (m : memory) (a : addr) : Z :=
  load_le m a (Z.to_nat psz).

Definition store_uint16 (m : memory) (a : addr) (v : Z) : memory :=
  store_le m a 2 v.
Definition store_int32 (m : memory) (a : addr) (v : Z) : memory :=
  store_le m a 4 v.
Definition store_ptr (psz : Z) (m : memory) (a : addr) (v : Z) : memory :=
  store_le m a (Z.to_nat psz) v.

(** Consecutive [uint16_t] units written from [a] on. *)
Fixpoint store_units (m : memory) (a : addr) (us : list Z) : memory :=
  match us with
  | [] => m
  | u :: rest => store_units (store_uint16 m a u) (a + 2) rest
  end.

Definition zero_memory : memory := fun _ => x00.

End Mem.
Import Mem.

(** ** Events and outcomes *)

(** The functions whose addresses the bootstrap code takes or calls. *)
Inductive extern_fn : Type :=
| RhNewObject
| RhNewArray
| RhTypeCast_IsInstanceOf
| RhTypeCast_CheckCast
| RhpStelemRef
| RhpLdelemaRef
| RhpThrowEx
| GetRuntimeException
| FailFast
| AppendExceptionStackFrame.

(** [typedef void( *pfn)();] with [None] for [nullptr]. *)
Definition pfn := option extern_fn.

Inductive event : Type :=
| EvPalInit
| EvRtuDllMain (hPalInstance dwReason pvReserved : Z)
| EvRhpEnableConservativeStackReporting
| EvRhpRegisterCoffModule (pModule pvStartRange cbRange : Z)
  (pClasslibFunctions : list pfn) (nClasslibFunctions : Z)
| EvInitializeModules (modules : list Z) (count : Z)
| EvManagedMain (argc : Z) (argv : Z)
| EvPrintf (text : string)
| EvPutwchar (c : Z).

Definition trace := list event.

(** What a C++ thrown object can be, as far as the handlers here tell. *)
Inductive exn : Type :=
| ExCString (s : string)     (* [throw "..."]: a [const char *] *)
| ExOther.                   (* an object of any other type *)

Inductive outcome (A : Type) : Type :=
| Normal (a : A)             (* the call returns [a] *)
| Raise (e : exn)            (* the call unwinds with [e] *)
| Exited (code : Z)          (* [exit(code)] was called *)
| Undefined.                 (* out-of-bounds access *)
Arguments Normal {A} a.
Arguments Raise {A} e.
Arguments Exited {A} code.
Arguments Undefined {A}.

(** A small writer monad with abrupt termination: a computation yields
    the events it performed and how it ended. *)
Definition M (A : Type) : Type := trace * outcome A.

Definition ret {A} (a : A) : M A := ([], Normal a).

Definition bind {A B} (m : M A) (k : A -> M B) : M B :=
  match m with
  | (t, Normal a) => let (t', o) := k a in (t ++ t', o)
  | (t, Raise e) => (t, Raise e)
  | (t, Exited c) => (t, Exited c)
  | (t, Undefined) => (t, Undefined)
  end.

(** An external call: the event is recorded and the callee's result returned. *)
Definition call {A} (ev : event) (result : A) : M A := ([ev], Normal result).

(** Output only. *)
Definition emit (t : trace) : M unit := (t, Normal tt).

Definition throw {A} (e : exn) : M A := ([], Raise e).
Definition exit {A} (code : Z) : M A := ([], Exited code).
Definition undefined {A} : M A := ([], Undefined).

(** [try { body } catch (const char* &e) { handler }]: only a thrown
    [const char *] is caught. *)
Definition try_catch_cstring {A} (body : M A) (handler : string -> M A) : M A :=
  match body with
  | (t, Raise (ExCString s)) => let (t', o) := handler s in (t ++ t', o)
  | other => other
  end.

Declare Scope bootstrap_scope.
Delimit Scope bootstrap_scope with boot.
Notation "x <- m ;; k" := (bind m (fun x => k))
  (at level 61, m at next level, right associativity) : bootstrap_scope.
Notation "m ;;; k" := (bind m (fun _ => k))
  (at level 61, right associativity) : bootstrap_scope.
#[local] Open Scope bootstrap_scope.

(** The line feed written [\n] in the C string literals. *)
Definition LF : string := String "010"%char EmptyString.

Definition nullptr : Z := 0.

(** ** Raw object layout accessors *)

Definition sizeof_int32 : Z := 4.
Definition sizeof_uint16 : Z := 2.

(** The loop of [PrintStringObject]:
    [while (index < length) { putwchar( *pString); pString++; index++; }].
    Inside the loop [index < length <= INT32_MAX], so [index++] does not
    overflow. *)
Equations? print_loop (m : memory) (pString : addr) (index length : Z)
  : trace by wf (Z.to_nat (length - index)) lt :=
  print_loop m pString index length with Z_lt_dec index length => {
    | left _ =>
        EvPutwchar (load_uint16 m pString)
          :: print_loop m (pString + sizeof_uint16) (index + 1) length
    | right _ => [] }.
Proof. lia. Qed.

Section WithPointerSize.

(** [sizeof(void * )], which is also [sizeof(intptr_t)]. *)
Variable psz : Z.

(** [Object::get_EEType]: [*(MethodTable ** )this]. *)
Definition get_EEType (m : memory) (this : addr) : Z := load_ptr psz m this.

(** [Array::GetArrayLength]: [*(int32_t * )((void ** )this + 1)]. *)
Definition GetArrayLength (m : memory) (this : addr) : Z :=
  load_int32 m (this + 1 * psz).

(** [Array::GetArrayData]: [(void ** )this + 2]. *)
Definition GetArrayData (this : addr) : addr := this + 2 * psz.

(** [PrintStringObject]: the length is read at [sizeof(intptr_t)], the
    code units start at [sizeof(intptr_t) + sizeof(int32_t)]. *)
Definition PrintStringObject (m : memory) (pStringToPrint : addr) : M unit :=
  let length := load_int32 m (pStringToPrint + psz) in
  let pString := pStringToPrint + psz + sizeof_int32 in
  emit (print_loop m pString 0 length).

(** [__not_yet_implemented]. *)
Definition __not_yet_implemented (m : memory) (pMethodName pMessage : addr)
  : M unit :=
  emit [EvPrintf ("ILCompiler failed generating code for this method; execution cannot continue." ++ LF)] ;;;
  emit [EvPrintf ("This is likely because of a feature that is not yet implemented in the compiler." ++ LF)] ;;;
  emit [EvPrintf "Method: "] ;;;
  PrintStringObject m pMethodName ;;;
  emit [EvPrintf (LF ++ LF)] ;;;
  emit [EvPrintf "Reason: "] ;;;
  PrintStringObject m pMessage ;;;
  emit [EvPrintf LF] ;;;
  exit (-1).

(** A string object as the code generator lays it out: the type
    descriptor, the 32-bit length, then the UTF-16 code units. *)
Definition write_string (m : memory) (p : addr) (td : Z) (units : list Z)
  : memory :=
  store_units
    (store_int32 (store_ptr psz m p td) (p + psz) (Z.of_nat (List.length units)))
    (p + psz + sizeof_int32) units.

(** [m] holds at [p] a string whose length field and code units are those
    of [units]. *)
Definition string_at (m : memory) (p : addr) (units : list Z) : Prop :=
  load_int32 m (p + psz) = Z.of_nat (List.length units) /\
  forall i u, nth_error units i = Some u ->
    load_uint16 m (p + psz + sizeof_int32 + sizeof_uint16 * Z.of_nat i) = u.

(** An array header: the type descriptor, then the 32-bit length. *)
Definition write_array_header (m : memory) (this : addr) (td len : Z)
  : memory :=
  store_int32 (store_ptr psz m this td) (this + psz) len.

(** The 32-bit field right after the type descriptor of the object at
    [this] holds [len] (two's complement, little-endian). *)
Definition array_at (m : memory) (this : addr) (len : Z) : Prop :=
  forall k, 0 <= k < sizeof_int32 ->
    m (this + psz + k) = byte_of_Z (len / 256 ^ k).

End WithPointerSize.

(** The address just past the length field of the object at [this]. *)
Definition after_length_field (psz : Z) (this : addr) : addr :=
  this + psz + sizeof_int32.

(** ** Unimplemented-feature stubs *)

Definition __fail_fast : M unit := throw (ExCString "__fail_fast").

Definition RhGetCurrentThreadStackTrace : M unit :=
  throw (ExCString "RhGetCurrentThreadStackTrace").
Definition RhpUniversalTransition : M unit :=
  throw (ExCString "RhpUniversalTransition").
Definition RhpEtwExceptionThrown : M unit :=
  throw (ExCString "RhpEtwExceptionThrown").

(** Stack-trace capture, universal call transition, exception telemetry. *)
Definition diagnostic_stubs : list (M unit) :=
  [RhGetCurrentThreadStackTrace; RhpUniversalTransition; RhpEtwExceptionThrown].

(** ** Module registry *)

(** The build configurations of the file without [CPPCODEGEN]:
    [Windows] has [_MSC_VER] and [_WIN32], [Apple] has [__APPLE__],
    [Unix] has none of them. *)
Inductive platform : Type := Windows | Apple | Unix.

(** Modelled from the spec: [NoStl::vector<void*>], declared in vector.h,
    which main.cpp includes and which is missing. It is the growable list
    to which each unit appends its descriptor; an index is valid below the
    size only. *)
Definition vector : Type := list Z.
Definition vector_empty : vector := [].
Definition push_back (v : vector) (x : Z) : vector := v ++ [x].
Definition size (v : vector) : Z := Z.of_nat (List.length v).
(** [v[i]] *)
Definition vector_index (v : vector) (i : nat) : option Z := nth_error v i.

(** [RegisterReadyToRunModule], on the global [__registeredModules]. *)
Definition RegisterReadyToRunModule (pModule : Z) (__registeredModules : vector)
  : vector :=
  push_back __registeredModules pModule.

(** [void * __modules_a[] = { nullptr };] and
    [void * __modules_z[] = { nullptr };] *)
Definition __modules_a : list Z := [nullptr].
Definition __modules_z : list Z := [nullptr].

(** What the loader leaves in the process image before [main] runs. *)
Record image : Type := {
  (** the merged [.modules] section, one pointer per entry *)
  modules_section : list Z;
  (** where [__modules_a] and [__modules_z] start in it, in entries *)
  addr_modules_a : Z;
  addr_modules_z : Z;
  (** the list the static initializers filled *)
  __registeredModules : vector;
  (** the sentinels of the managed code section, emitted by the compiler *)
  __managedcode_a : Z;
  __managedcode_z : Z
}.

(** Static initialization on [Apple]: each unit's stub calls
    [RegisterReadyToRunModule] with its descriptor. *)
Definition static_init (units : list Z) : vector :=
  fold_left (fun v u => RegisterReadyToRunModule u v) units vector_empty.

(** The image the linker and loader produce from the [.modules$I] entries
    [units] of the linked object files: the sections are folded in
    alphabetical order ([.modules$A], [.modules$I], [.modules$Z]); on
    [Apple] the entries are registered instead. *)
Definition link (p : platform) (units : list Z) (code_a code_z : Z) : image :=
  match p with
  | Apple =>
      {| modules_section := [];
         addr_modules_a := 0;
         addr_modules_z := 0;
         __registeredModules := static_init units;
         __managedcode_a := code_a;
         __managedcode_z := code_z |}
  | _ =>
      {| modules_section := __modules_a ++ units ++ __modules_z;
         addr_modules_a := 0;
         addr_modules_z := Z.of_nat (List.length __modules_a + List.length units);
         __registeredModules := vector_empty;
         __managedcode_a := code_a;
         __managedcode_z := code_z |}
  end.

(** The entries readable through a pointer to entry [a] of [section]. *)
Definition entries_from (section : list Z) (a : Z) : list Z :=
  skipn (Z.to_nat a) section.

(** The module list a consumer of [(modules, count)] reads:
    [modules[0]], ..., [modules[count - 1]]. *)
Definition module_list (modules : list Z) (count : Z) : list Z :=
  firstn (Z.to_nat count) modules.

(** ** Runtime initializer *)

(** The external routines [main] calls, with what they return.
    [GetModuleHandleW] is a query without effect and leaves no event. *)
Record env : Type := {
  PalInit : bool;
  RtuDllMain : Z -> Z -> Z -> Z;                       (* BOOL *)
  RhpEnableConservativeStackReporting : Z;             (* int32_t *)
  GetModuleHandleW : Z -> Z;
  RhpRegisterCoffModule : Z -> Z -> Z -> list pfn -> Z -> bool;
  (** the managed entry point: what it prints and how it ends *)
  __managed__Main : Z -> Z -> M Z
}.

Definition DLL_PROCESS_ATTACH : Z := 1.
Definition NULL : Z := 0.

(** [__initialize_runtime]. *)
Definition __initialize_runtime (e : env) : M Z :=
  ok <- call EvPalInit (PalInit e) ;;
  if negb ok then ret (-1) else
  ok <- call (EvRtuDllMain NULL DLL_PROCESS_ATTACH NULL)
          (RtuDllMain e NULL DLL_PROCESS_ATTACH NULL) ;;
  if ok =? 0 then ret (-1) else
  ok <- call EvRhpEnableConservativeStackReporting
          (RhpEnableConservativeStackReporting e) ;;
  if ok =? 0 then ret (-1) else
  ret 0.

(** [__shutdown_runtime]: an empty body. *)
Definition __shutdown_runtime : M unit := ret tt.

(** [static const pfn c_classlibFunctions[]]. *)
Definition c_classlibFunctions : list pfn :=
  [ Some GetRuntimeException;
    Some FailFast;
    None;   (* &UnhandledExceptionHandler *)
    None    (* &AppendExceptionStackFrame *) ].

(** [_countof]. *)
Definition _countof {A} (a : list A) : Z := Z.of_nat (List.length a).

(** The [#if defined(_WIN32) && !defined(CPPCODEGEN)] block of [main]:
    the result is [false] when [main] returns [-1] from it. *)
Definition register_coff_module (p : platform) (e : env) (img : image)
  : M bool :=
  match p with
  | Windows =>
      let pModule := GetModuleHandleW e NULL in
      let cbRange := to_uint32 (__managedcode_z img - __managedcode_a img) in
      call (EvRhpRegisterCoffModule pModule (__managedcode_a img) cbRange
              c_classlibFunctions (_countof c_classlibFunctions))
           (RhpRegisterCoffModule e pModule (__managedcode_a img) cbRange
              c_classlibFunctions (_countof c_classlibFunctions))
  | _ => ret true
  end.

(** The call of [InitializeModules] in [main]:
    [InitializeModules(&__registeredModules[0], __registeredModules.size())]
    on [Apple], [InitializeModules(__modules_a, (int)(__modules_z - __modules_a))]
    elsewhere. *)
Definition deliver_modules (p : platform) (img : image) : M unit :=
  match p with
  | Apple =>
      match vector_index (__registeredModules img) 0 with
      | None => undefined
      | Some _ =>
          call (EvInitializeModules (__registeredModules img)
                  (to_int32 (size (__registeredModules img)))) tt
      end
  | _ =>
      call (EvInitializeModules
              (entries_from (modules_section img) (addr_modules_a img))
              (to_int32 (addr_modules_z img - addr_modules_a img))) tt
  end.

(** The call of the managed entry point. *)
Definition call_managed_main (e : env) (argc argv : Z) : M Z :=
  call (EvManagedMain argc argv) tt ;;;
  __managed__Main e argc argv.

(** [main] ([wmain] on [Windows]). *)
Definition main (p : platform) (e : env) (img : image) (argc argv : Z) : M Z :=
  r <- __initialize_runtime e ;;
  if negb (r =? 0) then ret (-1) else
  registered <- register_coff_module p e img ;;
  if negb registered then ret (-1) else
  deliver_modules p img ;;;
  retval <-
    try_catch_cstring (call_managed_main e argc argv)
      (fun s =>
         emit [EvPrintf ("Call to an unimplemented runtime method; execution cannot continue." ++ LF)] ;;;
         emit [EvPrintf ("Method: " ++ s ++ LF)] ;;;
         ret (-1)) ;;
  __shutdown_runtime ;;;
  ret retval.

(** ** Vocabulary of the statements *)

Definition is_pal_init (ev : event) : bool :=
  match ev with EvPalInit => true | _ => false end.
Definition is_stack_scan_enable (ev : event) : bool :=
  match ev with EvRhpEnableConservativeStackReporting => true | _ => false end.
Definition is_initialize_modules (ev : event) : bool :=
  match ev with EvInitializeModules _ _ => true | _ => false end.
Definition is_managed_main (ev : event) : bool :=
  match ev with EvManagedMain _ _ => true | _ => false end.
Definition is_putwchar (ev : event) : bool :=
  match ev with EvPutwchar _ => true | _ => false end.

(** Position of the first event of a kind in a trace. *)
Fixpoint first_index (P : event -> bool) (t : trace) : option nat :=
  match t with
  | [] => None
  | ev :: t' => if P ev then Some 0%nat else option_map S (first_index P t')
  end.

(** The module list of the first [InitializeModules] call of a trace. *)
Definition delivered_modules (t : trace) : option (list Z) :=
  match find is_initialize_modules t with
  | Some (EvInitializeModules modules count) => Some (module_list modules count)
  | _ => None
  end.

(** Bootstrap steps 1 to 4 in program order, each with the call it makes
    and whether the callee reports success. Step 4 exists on [Windows]
    only. *)
Definition bootstrap_steps (p : platform) (e : env) (img : image)
  : list (event * bool) :=
  [ (EvPalInit, PalInit e);
    (EvRtuDllMain NULL DLL_PROCESS_ATTACH NULL,
     negb (RtuDllMain e NULL DLL_PROCESS_ATTACH NULL =? 0));
    (EvRhpEnableConservativeStackReporting,
     negb (RhpEnableConservativeStackReporting e =? 0)) ]
  ++ match p with
     | Windows =>
         let pModule := GetModuleHandleW e NULL in
         let cbRange := to_uint32 (__managedcode_z img - __managedcode_a img) in
         [ (EvRhpRegisterCoffModule pModule (__managedcode_a img) cbRange
              c_classlibFunctions (_countof c_classlibFunctions),
            RhpRegisterCoffModule e pModule (__managedcode_a img) cbRange
              c_classlibFunctions (_countof c_classlibFunctions)) ]
     | _ => []
     end.

(** The calls made when the steps run in order and stop at the first one
    that fails. *)
Fixpoint upto_first_failure (steps : list (event * bool)) : trace :=
  match steps with
  | [] => []
  | (ev, ok) :: rest => ev :: (if ok then upto_first_failure rest else [])
  end.

(** The callback table in the order the specification lists it. *)
Definition spec_callback_table : list pfn :=
  [ Some RhNewObject;              (* object-alloc *)
    Some RhNewArray;               (* array-alloc *)
    Some RhTypeCast_IsInstanceOf;  (* type-check *)
    Some RhpStelemRef;             (* store-ref-element *)
    Some RhpLdelemaRef;            (* load-ref-element-address *)
    Some RhpThrowEx;               (* raise-exception *)
    None;                          (* unhandled-handler *)
    None ].                        (* append-stack-frame *)

(** What the top-level handler of [main] prints for a caught [s]. *)
Definition fault_report (s : string) : trace :=
  [ EvPrintf ("Call to an unimplemented runtime method; execution cannot continue." ++ LF);
    EvPrintf ("Method: " ++ s ++ LF) ].

(** How [main] ends once the managed entry point has been called, given
    the events [pre] up to and including that call and the behaviour [r]
    of the managed code: a caught fault is reported and turned into the
    return value [-1]; every other ending is passed on. *)
Definition after_managed (pre : trace) (r : M Z) : M Z :=
  match r with
  | (mt, Raise (ExCString s)) => (pre ++ mt ++ fault_report s, Normal (-1))
  | (mt, other) => (pre ++ mt, other)
  end.

(** The entries of a list that are not null. *)
Definition non_null (l : list Z) : list Z :=
  filter (fun x => negb (x =? nullptr)) l.

(** ** Sample inputs *)

(** An environment in which every bootstrap step succeeds and the managed
    entry point behaves as [managed]. *)
Definition env_ok (managed : Z -> Z -> M Z) : env :=
  {| PalInit := true;
     RtuDllMain := fun _ _ _ => 1;
     RhpEnableConservativeStackReporting := 1;
     GetModuleHandleW := fun _ => 4194304;
     RhpRegisterCoffModule := fun _ _ _ _ _ => true;
     __managed__Main := managed |}.

(** An environment in which [PalInit] fails. *)
Definition env_pal_fails : env :=
  {| PalInit := false;
     RtuDllMain := fun _ _ _ => 1;
     RhpEnableConservativeStackReporting := 1;
     GetModuleHandleW := fun _ => 4194304;
     RhpRegisterCoffModule := fun _ _ _ _ _ => true;
     __managed__Main := fun argc _ => ret argc |}.

(** A managed entry point that returns 42. *)
Definition managed_returns_42 : Z -> Z -> M Z := fun _ _ => ret 42.

(** A managed entry point that runs into [RhpUniversalTransition]. *)
Definition managed_hits_stub : Z -> Z -> M Z :=
  fun _ _ => RhpUniversalTransition ;;; ret 0.

(** The string [abc] at address 4096 with 8-byte pointers. *)
Definition abc_units : list Z := [97; 98; 99].
Definition abc_memory : memory := write_string 8 zero_memory 4096 8192 abc_units.

(** An array of length 5 at address 4096 with 8-byte pointers. *)
Definition array5_memory : memory := write_array_header 8 zero_memory 4096 8192 5.

(** ** Helpers of the C++ code generator

    The part of the file compiled with [CPPCODEGEN]: wrappers around the
    runtime's routines, stand-ins that throw, and the string literal
    loader. A routine of the runtime is a parameter of the wrapper that
    calls it; [R] is whatever that routine yields. *)

Module CppCodegen.

(** [__allocate_object]. *)
Definition __allocate_object {R} (RhNewObject : Z -> R) (pMT : Z) : R :=
  RhNewObject pMT.


(** [__castclass]. *)
Definition __castclass {R} (RhTypeCast_CheckCast : Z -> Z -> R)
    (obj pTargetMT : Z) : R :=
  RhTypeCast_CheckCast obj pTargetMT.

(** [__isinst]. *)
Definition __isinst {R} (RhTypeCast_IsInstanceOf : Z -> Z -> R)
    (obj pTargetMT : Z) : R :=
  RhTypeCast_IsInstanceOf obj pTargetMT.

(** [__stelem_ref]: the [unsigned] index is passed as an [int]. *)
Definition __stelem_ref {R} (RhpStelemRef : Z -> Z -> Z -> R)
    (pArray idx obj : Z) : R :=
  RhpStelemRef pArray (to_int32 idx) obj.

(** [__ldelema_ref]: the [unsigned] index is passed as an [int]. *)
Definition __ldelema_ref {R} (RhpLdelemaRef : Z -> Z -> Z -> R)
    (pArray idx type : Z) : R :=
  RhpLdelemaRef pArray (to_int32 idx) type.

(** The stand-ins for the exception machinery. *)
Definition RhpThrowEx (pEx : Z) : M unit := throw (ExCString "RhpThrowEx").



(** [strlen] of a literal whose bytes are [s], followed by its
    terminating NUL: the number of bytes before the first NUL. *)
Fixpoint strlen_nat (s : list byte) : nat :=
  match s with
  | [] => 0
  | b :: rest => if byte_to_Z b =? 0 then 0 else S (strlen_nat rest)
  end.
Definition strlen (s : list byte) : Z := Z.of_nat (strlen_nat s).

(** [string[i]]: a byte of the literal, NUL past its end. *)
Definition char_at (s : list byte) (i : Z) : byte := nth (Z.to_nat i) s x00.

(** The conversion in [p[i] = string[i]], from [char] to [uint16_t]:
    where [char] is signed, bytes from 128 on are negative and wrap. *)
Definition char_to_uint16 (char_signed : bool) (b : byte) : Z :=
  let v := byte_to_Z b in
  let c := if char_signed && (128 <=? v) then v - 256 else v in
  c mod 2 ^ 16.

(** The loop of [__load_string_literal]:
    [for (size_t i = 0; i < len; i++) p[i] = string[i];] *)
Equations? copy_loop (char_signed : bool) (m : memory) (p : addr)
    (string : list byte) (i len : Z)
  : memory by wf (Z.to_nat (len - i)) lt :=
  copy_loop char_signed m p string i len with Z_lt_dec i len => {
    | left _ =>
        copy_loop char_signed
          (store_uint16 m (p + sizeof_uint16 * i)
             (char_to_uint16 char_signed (char_at string i)))
          p string (i + 1) len
    | right _ => m }.
Proof. lia. Qed.

(** [__load_string_literal]. [String_MT] is
    [System::String::__getMethodTable()]; [RhNewArray] takes the heap and
    returns the heap with the new object and the object's address. *)
Definition __load_string_literal (psz : Z) (char_signed : bool)
    (RhNewArray : memory -> Z -> Z -> memory * addr) (String_MT : Z)
    (m : memory) (string : list byte) : memory * addr :=
  let len := strlen string in
  let (m', pString) := RhNewArray m String_MT (to_int32 len) in
  let p := pString + psz + sizeof_int32 in
  (copy_loop char_signed m' p string 0 len, pString).

End CppCodegen.

(** ** More vocabulary and sample inputs *)

(** The stand-ins that exist without [CPPCODEGEN], each with the C string
    it throws. *)
Definition fault_stubs : list (M unit * string) :=
  [ (__fail_fast, "__fail_fast"%string);
    (RhGetCurrentThreadStackTrace, "RhGetCurrentThreadStackTrace"%string);
    (RhpUniversalTransition, "RhpUniversalTransition"%string);
    (RhpEtwExceptionThrown, "RhpEtwExceptionThrown"%string) ].


(** The entries of the merged section from bookend [a] up to, not
    including, bookend [z]. *)
Definition between_bookends (section : list Z) (a z : Z) : list Z :=
  firstn (Z.to_nat (z - a)) (skipn (Z.to_nat a) section).

(** An allocator that puts every new array at 4096, for 8-byte pointers. *)
Definition sample_RhNewArray (m : memory) (pMT elements : Z) : memory * addr :=
  (write_array_header 8 m 4096 pMT elements, 4096).

(** The bytes of the literal [abc]. *)
Definition abc_literal : list byte := [x61; x62; x63].

(** Two strings, [Foo] at 4096 and [bad] at 8192, with 8-byte pointers. *)
Definition two_strings_memory : memory :=
  write_string 8 (write_string 8 zero_memory 4096 0 [70; 111; 111])
    8192 0 [98; 97; 100].

(** ** Proof automation *)

(** Opens an environment record into its six routines. *)
Ltac unfold_env e :=
  destruct e as [pal rtu scan gmh coff mm];
  cbn [PalInit RtuDllMain RhpEnableConservativeStackReporting
       GetModuleHandleW RhpRegisterCoffModule __managed__Main].

(** ** Results *)

(** *** Machine integers and memory *)

Lemma to_int32_of_uint32 (v : Z) :
  in_int32 v -> to_int32 (v mod 2 ^ 32) = v.
Proof.
  unfold in_int32, INT32_MIN, INT32_MAX, to_int32. intros Hv.
  destruct (Z_lt_dec v 0) as [Hneg | Hpos].
  - replace (v mod 2 ^ 32) with (v + 2 ^ 32).
    + replace (v + 2 ^ 32 + 2 ^ 31) with (v + 2 ^ 31 + 1 * 2 ^ 32) by lia.
      rewrite Z.mod_add by lia. rewrite Z.mod_small; lia.
    + apply Z.mod_unique with (q := -1); lia.
  - rewrite (Z.mod_small v) by lia. rewrite Z.mod_small; lia.
Qed.

Lemma to_int32_small (v : Z) : in_int32 v -> to_int32 v = v.
Proof.
  unfold in_int32, INT32_MIN, INT32_MAX, to_int32. intros Hv.
  rewrite Z.mod_small; lia.
Qed.

Lemma byte_roundtrip (z : Z) : byte_to_Z (byte_of_Z z) = z mod 256.
Proof.
  unfold byte_to_Z, byte_of_Z.
  assert (Hr : 0 <= z mod 256 < 256) by (apply Z.mod_pos_bound; lia).
  destruct (Byte.of_N (Z.to_N (z mod 256))) as [b |] eqn:Hb.
  - apply Byte.to_of_N in Hb. rewrite Hb. apply Z2N.id. lia.
  - apply Byte.of_N_None_iff in Hb. lia.
Qed.

Lemma load_le_ext (m1 m2 : memory) (n : nat) : forall a,
  (forall x, a <= x < a + Z.of_nat n -> m1 x = m2 x) ->
  load_le m1 a n = load_le m2 a n.
Proof.
  induction n as [| k IH]; intros a H; simpl; [reflexivity |].
  rewrite (H a) by lia. rewrite (IH (a + 1)); [reflexivity |].
  intros x Hx. apply H. lia.
Qed.

Lemma store_le_outside (n : nat) : forall m a v x,
  x < a \/ a + Z.of_nat n <= x -> store_le m a n v x = m x.
Proof.
  induction n as [| k IH]; intros m a v x Hx; simpl; [reflexivity |].
  destruct (Z.eqb_spec x a) as [-> | Hne]; [lia |].
  apply IH. lia.
Qed.

Lemma store_le_inside (n : nat) : forall m a v k,
  0 <= k < Z.of_nat n -> store_le m a n v (a + k) = byte_of_Z (v / 256 ^ k).
Proof.
  induction n as [| j IH]; intros m a v k Hk; simpl; [lia |].
  destruct (Z.eqb_spec (a + k) a) as [Heq | Hne].
  - assert (k = 0) as -> by lia. simpl. now rewrite Z.div_1_r.
  - replace (a + k) with (a + 1 + (k - 1)) by lia.
    rewrite IH by lia. f_equal.
    rewrite Z.div_div by lia.
    replace (256 * 256 ^ (k - 1)) with (256 ^ k); [reflexivity |].
    replace k with (Z.succ (k - 1)) at 1 by lia.
    rewrite Z.pow_succ_r by lia. reflexivity.
Qed.

Lemma load_le_bytes (n : nat) : forall m a v,
  (forall k, 0 <= k < Z.of_nat n -> m (a + k) = byte_of_Z (v / 256 ^ k)) ->
  load_le m a n = v mod 256 ^ Z.of_nat n.
Proof.
  induction n as [| j IH]; intros m a v H.
  - simpl. now rewrite Z.mod_1_r.
  - cbn [load_le].
    rewrite <- (Z.add_0_r a) at 1. rewrite (H 0) by lia.
    rewrite Z.div_1_r, byte_roundtrip.
    rewrite (IH m (a + 1) (v / 256)).
    + rewrite Nat2Z.inj_succ, Z.pow_succ_r by lia.
      rewrite Z.rem_mul_r by lia. reflexivity.
    + intros k Hk. replace (a + 1 + k) with (a + (k + 1)) by lia.
      rewrite H by lia. f_equal.
      rewrite Z.div_div by lia.
      replace (k + 1) with (Z.succ k) by lia.
      rewrite Z.pow_succ_r by lia. reflexivity.
Qed.

Lemma load_store_le (n : nat) (m : memory) (a v : Z) :
  load_le (store_le m a n v) a n = v mod 256 ^ Z.of_nat n.
Proof.
  apply load_le_bytes. intros k Hk. now apply store_le_inside.
Qed.

(** *** The monad of runs *)

Lemma bind_ret_l {A B} (a : A) (k : A -> M B) : bind (ret a) k = k a.
Proof. unfold bind, ret. now destruct (k a). Qed.

Lemma bind_ret_r {A} (m : M A) : bind m ret = m.
Proof.
  destruct m as [t [a | ex | c |]]; cbn; now rewrite ?app_nil_r.
Qed.

Lemma bind_assoc {A B C} (m : M A) (k : A -> M B) (h : B -> M C) :
  bind (bind m k) h = bind m (fun a => bind (k a) h).
Proof.
  destruct m as [t [a | ex | c |]]; cbn; try reflexivity.
  destruct (k a) as [t1 [b | ex | c |]]; cbn; try reflexivity.
  destruct (h b) as [t2 o]. now rewrite app_assoc.
Qed.

(** Nothing runs after a [throw]. *)
Lemma bind_throw {A B} (ex : exn) (k : A -> M B) :
  bind (throw ex) k = throw ex.
Proof. reflexivity. Qed.

(** *** The loop of the string walk *)

Lemma print_loop_step (m : memory) (pString index length : Z) :
  index < length ->
  print_loop m pString index length =
  EvPutwchar (load_uint16 m pString)
    :: print_loop m (pString + sizeof_uint16) (index + 1) length.
Proof.
  intros Hlt. rewrite print_loop_equation_1.
  destruct (Z_lt_dec index length); [reflexivity | lia].
Qed.

Lemma print_loop_done (m : memory) (pString index length : Z) :
  length <= index -> print_loop m pString index length = [].
Proof.
  intros Hge. rewrite print_loop_equation_1.
  destruct (Z_lt_dec index length); [lia | reflexivity].
Qed.

(** The loop emits one character per code unit left, in memory order. *)
Lemma print_loop_units (m : memory) (units : list Z) :
  forall pString index length,
    length - index = Z.of_nat (List.length units) ->
    (forall i u, nth_error units i = Some u ->
       load_uint16 m (pString + sizeof_uint16 * Z.of_nat i) = u) ->
    print_loop m pString index length = map EvPutwchar units.
Proof.
  induction units as [| u rest IH]; intros pString index length Hlen Hmem.
  - simpl in Hlen. apply print_loop_done. lia.
  - simpl List.length in Hlen. rewrite Nat2Z.inj_succ in Hlen.
    rewrite print_loop_step by lia. simpl. f_equal.
    + f_equal. specialize (Hmem 0%nat u eq_refl).
      rewrite Z.mul_0_r, Z.add_0_r in Hmem. exact Hmem.
    + apply IH; [lia |].
      intros i v Hi. specialize (Hmem (S i) v Hi).
      rewrite Nat2Z.inj_succ in Hmem.
      replace (pString + sizeof_uint16 + sizeof_uint16 * Z.of_nat i)
        with (pString + sizeof_uint16 * Z.succ (Z.of_nat i)) by lia.
      exact Hmem.
Qed.

(** A negative length field prints nothing. *)
Lemma print_loop_negative (m : memory) (pString length : Z) :
  length <= 0 -> print_loop m pString 0 length = [].
Proof. apply print_loop_done. Qed.

(** *** Objects written by the code generator's layout *)

Lemma write_array_header_at (psz : Z) (m : memory) (this td len : Z) :
  array_at psz (write_array_header psz m this td len) this len.
Proof.
  intros k Hk. unfold write_array_header, store_int32.
  apply store_le_inside. unfold sizeof_int32 in Hk. simpl. lia.
Qed.

Lemma store_units_below (units : list Z) : forall m a x,
  x < a -> store_units m a units x = m x.
Proof.
  induction units as [| u rest IH]; intros m a x Hx; simpl; [reflexivity |].
  rewrite IH by lia. unfold store_uint16.
  apply store_le_outside. lia.
Qed.

Lemma load_store_units (units : list Z) : forall m a i u,
  Forall (fun v => 0 <= v < 65536) units ->
  nth_error units i = Some u ->
  load_uint16 (store_units m a units) (a + sizeof_uint16 * Z.of_nat i) = u.
Proof.
  unfold sizeof_uint16.
  induction units as [| v rest IH]; intros m a i u Hr Hi.
  - destruct i; discriminate.
  - inversion Hr as [| ? ? Hv Hrest]; subst. destruct i as [| j].
    + injection Hi as ->. simpl store_units.
      rewrite Z.mul_0_r, Z.add_0_r. unfold load_uint16.
      rewrite (load_le_ext _ (store_uint16 m a u)).
      * unfold store_uint16. rewrite load_store_le.
        apply Z.mod_small. simpl. lia.
      * intros x Hx. apply store_units_below. simpl in Hx. lia.
    + simpl in Hi. simpl store_units.
      replace (a + 2 * Z.of_nat (S j)) with (a + 2 + 2 * Z.of_nat j) by lia.
      now apply IH.
Qed.

Lemma write_string_at (psz : Z) (m : memory) (p td : Z) (units : list Z) :
  Forall (fun v => 0 <= v < 65536) units ->
  Z.of_nat (List.length units) <= INT32_MAX ->
  string_at psz (write_string psz m p td units) p units.
Proof.
  intros Hr Hlen. unfold string_at, write_string. split.
  - unfold load_int32.
    rewrite (load_le_ext _
      (store_int32 (store_ptr psz m p td) (p + psz) (Z.of_nat (List.length units)))).
    + unfold store_int32. rewrite load_store_le.
      apply to_int32_of_uint32.
      unfold in_int32, INT32_MIN. unfold INT32_MAX in *. lia.
    + intros x Hx. apply store_units_below. unfold sizeof_int32.
      simpl in Hx. lia.
  - intros i u Hi. now apply load_store_units.
Qed.

(** *** C3 and C7: the layout accessors *)

(** C3, refuted as stated: with 8-byte pointers [GetArrayData] of the
    object at 4096 is 4112, while the address at offset pointer-size + 4,
    the one immediately following the length field, is 4108. *)
Lemma GetArrayData_not_after_length_field :
  GetArrayData 8 4096 = 4112 /\
  after_length_field 8 4096 = 4108 /\
  GetArrayData 8 4096 <> after_length_field 8 4096.
Proof.
  unfold GetArrayData, after_length_field, sizeof_int32.
  repeat split; try reflexivity. lia.
Qed.

(** C3, amended: for every array object whose 32-bit field after the type
    descriptor holds [len], [GetArrayLength] returns [len]; [GetArrayData]
    returns the address two pointer sizes into the object, which is the
    address immediately following the length field exactly when pointers
    are 4 bytes wide. *)
Theorem array_accessors (psz : Z) (m : memory) (this len : Z) :
  array_at psz m this len ->
  in_int32 len ->
  GetArrayLength psz m this = len /\
  GetArrayData psz this = this + 2 * psz /\
  (GetArrayData psz this = after_length_field psz this <-> psz = 4).
Proof.
  intros Hat Hlen. repeat split.
  - unfold GetArrayLength, load_int32.
    rewrite (load_le_bytes 4 m (this + 1 * psz) len).
    + now apply to_int32_of_uint32.
    + intros k Hk. replace (this + 1 * psz + k) with (this + psz + k) by lia.
      apply Hat. unfold sizeof_int32. simpl in Hk. lia.
  - unfold GetArrayData, after_length_field, sizeof_int32. lia.
  - unfold GetArrayData, after_length_field, sizeof_int32. lia.
Qed.

Lemma array_accessors_witness :
  GetArrayLength 8 array5_memory 4096 = 5 /\
  GetArrayData 8 4096 = 4096 + 2 * 8 /\
  (GetArrayData 8 4096 = after_length_field 8 4096 <-> 8 = 4).
Proof.
  apply (array_accessors 8 array5_memory 4096 5).
  - intros k Hk. unfold sizeof_int32 in Hk.
    assert (Hcases : k = 0 \/ k = 1 \/ k = 2 \/ k = 3) by lia.
    destruct Hcases as [-> | [-> | [-> | ->]]]; vm_compute; reflexivity.
  - unfold in_int32, INT32_MIN, INT32_MAX. lia.
Defined.

(** C7: for every string object that holds the length [L] and then the [L]
    code units [units], [PrintStringObject] emits exactly the characters
    of [units], in order, and nothing else. *)
Theorem string_walk_exact (psz : Z) (m : memory) (p : addr) (units : list Z) :
  string_at psz m p units ->
  PrintStringObject psz m p = (map EvPutwchar units, Normal tt).
Proof.
  intros [Hlen Hunits]. unfold PrintStringObject, emit. f_equal.
  rewrite Hlen. apply print_loop_units; [lia | exact Hunits].
Qed.

Lemma string_walk_exact_witness :
  PrintStringObject 8 abc_memory 4096 =
  ([EvPutwchar 97; EvPutwchar 98; EvPutwchar 99], Normal tt).
Proof.
  apply (string_walk_exact 8 abc_memory 4096 abc_units).
  split.
  - vm_compute. reflexivity.
  - intros i u Hi.
    destruct i as [| [| [| i]]]; simpl in Hi;
      try (injection Hi as <-; vm_compute; reflexivity).
    destruct i; discriminate.
Defined.

(** *** The shape of a run of [main] *)

(** A failing step ends [main] at once with [-1]. *)
Lemma main_bootstrap_failure (p : platform) (e : env) (img : image)
    (argc argv : Z) :
  forallb snd (bootstrap_steps p e img) = false ->
  main p e img argc argv =
  (upto_first_failure (bootstrap_steps p e img), Normal (-1)).
Proof.
  unfold main, __initialize_runtime, register_coff_module, bootstrap_steps.
  unfold_env e.
  destruct pal; cbn; [| reflexivity].
  destruct (rtu NULL DLL_PROCESS_ATTACH NULL =? 0); cbn; [reflexivity |].
  destruct (scan =? 0); cbn; [reflexivity |].
  destruct p; cbn; try discriminate.
  destruct (coff _ _ _ _ _); cbn; [discriminate | reflexivity].
Qed.

(** With every step successful and the module list delivered, the managed
    entry point is called and decides how [main] ends. *)
Lemma main_bootstrap_success (p : platform) (e : env) (img : image)
    (argc argv : Z) :
  forallb snd (bootstrap_steps p e img) = true ->
  snd (deliver_modules p img) = Normal tt ->
  main p e img argc argv =
  after_managed
    (map fst (bootstrap_steps p e img) ++ fst (deliver_modules p img)
       ++ [EvManagedMain argc argv])
    (__managed__Main e argc argv).
Proof.
  unfold main, __initialize_runtime, register_coff_module, bootstrap_steps,
    call_managed_main.
  unfold_env e.
  destruct pal; cbn; [| discriminate].
  destruct (rtu NULL DLL_PROCESS_ATTACH NULL =? 0); cbn; [discriminate |].
  destruct (scan =? 0); cbn; [discriminate |].
  intros Hsteps Hdel.
  destruct (mm argc argv) as [mt o].
  destruct p; cbn in *.
  - destruct (coff _ _ _ _ _); cbn in *; [| discriminate].
    destruct o as [rv | [s |] | c |]; cbn; rewrite ?app_nil_r; reflexivity.
  - unfold deliver_modules in *.
    destruct (__registeredModules img); cbn in *; [discriminate |].
    destruct o as [rv | [s |] | c |]; cbn; rewrite ?app_nil_r; reflexivity.
  - destruct o as [rv | [s |] | c |]; cbn; rewrite ?app_nil_r; reflexivity.
Qed.

(** With every step successful and no module list to deliver, [main] stops
    at the delivery. *)
Lemma main_delivery_undefined (p : platform) (e : env) (img : image)
    (argc argv : Z) :
  forallb snd (bootstrap_steps p e img) = true ->
  snd (deliver_modules p img) <> Normal tt ->
  main p e img argc argv = (map fst (bootstrap_steps p e img), Undefined).
Proof.
  unfold main, __initialize_runtime, register_coff_module, bootstrap_steps.
  unfold_env e.
  destruct pal; cbn; [| discriminate].
  destruct (rtu NULL DLL_PROCESS_ATTACH NULL =? 0); cbn; [discriminate |].
  destruct (scan =? 0); cbn; [discriminate |].
  intros Hsteps Hdel.
  destruct p; cbn in *; try congruence.
  unfold deliver_modules in *.
  destruct (__registeredModules img); cbn in *; [reflexivity | congruence].
Qed.

Lemma upto_first_failure_last (steps : list (event * bool)) :
  forallb snd steps = false ->
  exists pre ev,
    upto_first_failure steps = pre ++ [ev] /\ In (ev, false) steps.
Proof.
  induction steps as [| [ev ok] rest IH]; simpl; [discriminate |].
  destruct ok; simpl; intros H.
  - destruct (IH H) as (pre & ev' & Heq & Hin).
    exists (ev :: pre), ev'. rewrite Heq. split; [reflexivity | now right].
  - exists [], ev. split; [reflexivity | now left].
Qed.

Lemma upto_first_failure_Forall (P : event -> Prop)
    (steps : list (event * bool)) :
  Forall P (map fst steps) -> Forall P (upto_first_failure steps).
Proof.
  induction steps as [| [ev ok] rest IH]; simpl; intros H; [constructor |].
  inversion H; subst. constructor; [assumption |].
  destruct ok; [now apply IH | constructor].
Qed.

Lemma bootstrap_steps_events (p : platform) (e : env) (img : image) :
  Forall (fun ev => is_managed_main ev = false /\
                    is_initialize_modules ev = false)
    (map fst (bootstrap_steps p e img)).
Proof.
  unfold bootstrap_steps. destruct p; cbn; repeat constructor.
Qed.

Lemma first_index_none (P : event -> bool) (t : trace) :
  Forall (fun ev => P ev = false) t -> first_index P t = None.
Proof.
  induction 1 as [| ev t' Hev _ IH]; simpl; [reflexivity |].
  now rewrite Hev, IH.
Qed.

Lemma static_init_units (units : list Z) : static_init units = units.
Proof.
  unfold static_init, RegisterReadyToRunModule, push_back, vector_empty.
  enough (H : forall acc, fold_left (fun v u => v ++ [u]) units acc
                          = acc ++ units) by apply (H []).
  induction units as [| u rest IH]; intros acc; simpl.
  - now rewrite app_nil_r.
  - rewrite IH, <- app_assoc. reflexivity.
Qed.

Lemma outcome_unit_dec (o : outcome unit) :
  {o = Normal tt} + {o <> Normal tt}.
Proof.
  destruct o as [[] | ex | c |];
    [left; reflexivity | right; discriminate ..].
Qed.

(** *** C5, C6, C9: the bootstrap sequence *)

(** C5: if any of the bootstrap steps 1 to 4 reports failure, [main]
    returns the negative code [-1], the calls it made are the steps up to
    the failing one and nothing after it, and neither the module
    initializers nor the managed entry point are called. *)
Theorem bootstrap_failure_is_fatal (p : platform) (e : env) (img : image)
    (argc argv : Z) :
  forallb snd (bootstrap_steps p e img) = false ->
  (exists code, snd (main p e img argc argv) = Normal code /\ code < 0) /\
  fst (main p e img argc argv) = upto_first_failure (bootstrap_steps p e img) /\
  (exists pre ev,
      fst (main p e img argc argv) = pre ++ [ev] /\
      In (ev, false) (bootstrap_steps p e img)) /\
  Forall (fun ev => is_managed_main ev = false /\
                    is_initialize_modules ev = false)
    (fst (main p e img argc argv)).
Proof.
  intros Hfail. rewrite main_bootstrap_failure by assumption. cbn [fst snd].
  split; [| split; [| split]].
  - exists (-1). split; [reflexivity | lia].
  - reflexivity.
  - now apply upto_first_failure_last.
  - apply upto_first_failure_Forall, bootstrap_steps_events.
Qed.

Lemma bootstrap_failure_is_fatal_witness :
  (exists code,
      snd (main Unix env_pal_fails (link Unix [8192] 0 0) 1 0) = Normal code /\
      code < 0) /\
  fst (main Unix env_pal_fails (link Unix [8192] 0 0) 1 0) = [EvPalInit].
Proof.
  destruct (bootstrap_failure_is_fatal Unix env_pal_fails
              (link Unix [8192] 0 0) 1 0) as (Hcode & Htrace & _).
  - reflexivity.
  - split; [exact Hcode | exact Htrace].
Defined.

(** C6: on every run of [main] that reaches the managed entry point, the
    first call of [PalInit] comes before the first call of
    [RhpEnableConservativeStackReporting], which comes before the first
    call of [InitializeModules], which comes before the call of the
    managed entry point. *)
Theorem bootstrap_order (p : platform) (e : env) (img : image)
    (argc argv : Z) (l : nat) :
  first_index is_managed_main (fst (main p e img argc argv)) = Some l ->
  exists i j k,
    first_index is_pal_init (fst (main p e img argc argv)) = Some i /\
    first_index is_stack_scan_enable (fst (main p e img argc argv)) = Some j /\
    first_index is_initialize_modules (fst (main p e img argc argv)) = Some k /\
    (i < j)%nat /\ (j < k)%nat /\ (k < l)%nat.
Proof.
  destruct (forallb snd (bootstrap_steps p e img)) eqn:Hsteps.
  - destruct (outcome_unit_dec (snd (deliver_modules p img))) as [Hdel | Hdel].
    + rewrite main_bootstrap_success by assumption.
      destruct (__managed__Main e argc argv) as [mt o].
      assert (Hshape : exists rest,
        fst (after_managed
               (map fst (bootstrap_steps p e img)
                  ++ fst (deliver_modules p img) ++ [EvManagedMain argc argv])
               (mt, o))
        = (map fst (bootstrap_steps p e img)
             ++ fst (deliver_modules p img) ++ [EvManagedMain argc argv])
            ++ rest).
      { destruct o as [rv | [s |] | c |]; cbn [after_managed fst];
          eexists; reflexivity. }
      destruct Hshape as [rest ->].
      unfold bootstrap_steps, deliver_modules in *.
      destruct p; cbn in Hdel |- *.
      * intros [= <-]. exists 0%nat, 2%nat, 4%nat. repeat split; lia.
      * destruct (__registeredModules img); cbn in Hdel |- *;
          [discriminate |].
        intros [= <-]. exists 0%nat, 2%nat, 3%nat. repeat split; lia.
      * intros [= <-]. exists 0%nat, 2%nat, 3%nat. repeat split; lia.
    + rewrite main_delivery_undefined by assumption. cbn [fst].
      rewrite first_index_none; [discriminate |].
      eapply Forall_impl; [| apply bootstrap_steps_events].
      now intros ev [H _].
  - rewrite main_bootstrap_failure by assumption. cbn [fst].
    rewrite first_index_none; [discriminate |].
    eapply Forall_impl;
      [| apply upto_first_failure_Forall, bootstrap_steps_events].
    now intros ev [H _].
Qed.

Lemma bootstrap_order_witness :
  exists i j k,
    first_index is_pal_init
      (fst (main Unix (env_ok managed_returns_42) (link Unix [8192] 0 0) 1 0))
    = Some i /\
    first_index is_stack_scan_enable
      (fst (main Unix (env_ok managed_returns_42) (link Unix [8192] 0 0) 1 0))
    = Some j /\
    first_index is_initialize_modules
      (fst (main Unix (env_ok managed_returns_42) (link Unix [8192] 0 0) 1 0))
    = Some k /\
    (i < j)%nat /\ (j < k)%nat /\ (k < 4)%nat.
Proof.
  apply (bootstrap_order Unix (env_ok managed_returns_42)
           (link Unix [8192] 0 0) 1 0 4).
  reflexivity.
Defined.

(** C9: when every bootstrap step succeeds, the module list is delivered
    and the managed entry point returns [r], [main] has called the managed
    entry point with its own [argc] and [argv] and returns [r]. *)
Theorem managed_result_is_exit_code (p : platform) (e : env) (img : image)
    (argc argv : Z) (mt : trace) (r : Z) :
  forallb snd (bootstrap_steps p e img) = true ->
  snd (deliver_modules p img) = Normal tt ->
  __managed__Main e argc argv = (mt, Normal r) ->
  main p e img argc argv =
  (map fst (bootstrap_steps p e img) ++ fst (deliver_modules p img)
     ++ [EvManagedMain argc argv] ++ mt,
   Normal r).
Proof.
  intros Hsteps Hdel Hmm.
  rewrite main_bootstrap_success by assumption.
  rewrite Hmm. cbn [after_managed].
  now rewrite <- !app_assoc.
Qed.

Lemma managed_result_is_exit_code_witness :
  main Unix (env_ok (fun argc argv => ([EvPrintf "hello"], Normal (argc + argv))))
    (link Unix [8192] 0 0) 3 39 =
  ([EvPalInit; EvRtuDllMain 0 1 0; EvRhpEnableConservativeStackReporting;
    EvInitializeModules [0; 8192; 0] 2; EvManagedMain 3 39; EvPrintf "hello"],
   Normal 42).
Proof.
  apply (managed_result_is_exit_code Unix
           (env_ok (fun argc argv => ([EvPrintf "hello"], Normal (argc + argv))))
           (link Unix [8192] 0 0) 3 39 [EvPrintf "hello"] 42);
    reflexivity.
Defined.

(** *** C4 and C8: faults *)

Lemma not_yet_implemented_run (psz : Z) (m : memory)
    (pMethodName pMessage : addr) :
  __not_yet_implemented psz m pMethodName pMessage =
  ([ EvPrintf ("ILCompiler failed generating code for this method; execution cannot continue." ++ LF);
     EvPrintf ("This is likely because of a feature that is not yet implemented in the compiler." ++ LF);
     EvPrintf "Method: " ]
     ++ fst (PrintStringObject psz m pMethodName)
     ++ [ EvPrintf (LF ++ LF); EvPrintf "Reason: " ]
     ++ fst (PrintStringObject psz m pMessage)
     ++ [ EvPrintf LF ],
   Exited (-1)).
Proof.
  unfold __not_yet_implemented, PrintStringObject, emit, exit, bind.
  cbn [fst app]. reflexivity.
Qed.

(** C4, refuted as stated: when the managed entry point runs into
    [RhpUniversalTransition], the handler in [main] prints two [printf]
    lines, the second with the C string it caught; no character goes
    through the string walk, what is printed is not what
    [__not_yet_implemented] prints for any pair of managed strings, and
    [main] returns [-1] to its caller instead of ending the process in
    the handler. *)
Lemma fault_boundary_prints_c_string :
  main Unix (env_ok managed_hits_stub) (link Unix [8192] 0 0) 1 0 =
  ([ EvPalInit; EvRtuDllMain 0 1 0; EvRhpEnableConservativeStackReporting;
     EvInitializeModules [0; 8192; 0] 2; EvManagedMain 1 0;
     EvPrintf ("Call to an unimplemented runtime method; execution cannot continue." ++ LF);
     EvPrintf ("Method: RhpUniversalTransition" ++ LF) ],
   Normal (-1)) /\
  existsb is_putwchar
    (fst (main Unix (env_ok managed_hits_stub) (link Unix [8192] 0 0) 1 0))
  = false /\
  forall psz m pMethodName pMessage,
    ~ exists pre,
        fst (main Unix (env_ok managed_hits_stub) (link Unix [8192] 0 0) 1 0)
        = pre ++ fst (__not_yet_implemented psz m pMethodName pMessage).
Proof.
  split; [reflexivity | split; [reflexivity |]].
  intros psz m pMethodName pMessage [pre H].
  rewrite not_yet_implemented_run in H. cbn [fst] in H.
  apply (f_equal (@rev event)) in H.
  rewrite !rev_app_distr in H. cbn in H.
  discriminate H.
Qed.

(** C4, amended: the handler around the call of the managed entry point
    catches one type of thrown object, a C string; having caught [s] it
    prints a fixed line and the line [Method: s] with [printf], and [main]
    then returns [-1]; an object of another type is not caught. The
    routine that takes a method name and a reason as managed strings is
    [__not_yet_implemented]: it prints both with [PrintStringObject] and
    ends the process with [exit(-1)]. *)
Theorem fault_boundary (p : platform) (e : env) (img : image)
    (argc argv : Z) (mt : trace) (ex : exn) :
  forallb snd (bootstrap_steps p e img) = true ->
  snd (deliver_modules p img) = Normal tt ->
  __managed__Main e argc argv = (mt, Raise ex) ->
  main p e img argc argv =
    match ex with
    | ExCString s =>
        ((map fst (bootstrap_steps p e img) ++ fst (deliver_modules p img)
            ++ [EvManagedMain argc argv]) ++ mt
           ++ [ EvPrintf ("Call to an unimplemented runtime method; execution cannot continue." ++ LF);
                EvPrintf ("Method: " ++ s ++ LF) ],
         Normal (-1))
    | ExOther =>
        ((map fst (bootstrap_steps p e img) ++ fst (deliver_modules p img)
            ++ [EvManagedMain argc argv]) ++ mt,
         Raise ExOther)
    end /\
  forall psz m pMethodName pMessage,
    __not_yet_implemented psz m pMethodName pMessage =
    ([ EvPrintf ("ILCompiler failed generating code for this method; execution cannot continue." ++ LF);
       EvPrintf ("This is likely because of a feature that is not yet implemented in the compiler." ++ LF);
       EvPrintf "Method: " ]
       ++ fst (PrintStringObject psz m pMethodName)
       ++ [ EvPrintf (LF ++ LF); EvPrintf "Reason: " ]
       ++ fst (PrintStringObject psz m pMessage)
       ++ [ EvPrintf LF ],
     Exited (-1)).
Proof.
  intros Hsteps Hdel Hmm. split.
  - rewrite main_bootstrap_success by assumption. rewrite Hmm.
    destruct ex as [s |]; reflexivity.
  - apply not_yet_implemented_run.
Qed.

Lemma fault_boundary_witness :
  main Unix (env_ok managed_hits_stub) (link Unix [8192] 0 0) 1 0 =
  ([ EvPalInit; EvRtuDllMain 0 1 0; EvRhpEnableConservativeStackReporting;
     EvInitializeModules [0; 8192; 0] 2; EvManagedMain 1 0;
     EvPrintf ("Call to an unimplemented runtime method; execution cannot continue." ++ LF);
     EvPrintf ("Method: RhpUniversalTransition" ++ LF) ],
   Normal (-1)).
Proof.
  apply (fault_boundary Unix (env_ok managed_hits_stub) (link Unix [8192] 0 0)
           1 0 [] (ExCString "RhpUniversalTransition"));
    reflexivity.
Defined.

(** C8: each of the stubs [RhGetCurrentThreadStackTrace],
    [RhpUniversalTransition] and [RhpEtwExceptionThrown] throws a C string
    (its own name) before doing anything else and never returns to its
    caller; the thrown object is of the type the handler of [main]
    catches. *)
Theorem diagnostic_stubs_always_fault :
  diagnostic_stubs =
    [ throw (ExCString "RhGetCurrentThreadStackTrace");
      throw (ExCString "RhpUniversalTransition");
      throw (ExCString "RhpEtwExceptionThrown") ] /\
  Forall (fun stub : M unit =>
            (exists name, stub = ([], Raise (ExCString name))) /\
            (forall v, snd stub <> Normal v) /\
            (forall (k : unit -> M Z) (handler : string -> M Z),
                exists name,
                  try_catch_cstring (bind stub k) handler = handler name))
    diagnostic_stubs.
Proof.
  split; [reflexivity |].
  unfold diagnostic_stubs, RhGetCurrentThreadStackTrace,
    RhpUniversalTransition, RhpEtwExceptionThrown, throw.
  repeat (apply Forall_cons; [| try apply Forall_nil]).
  all: split; [eexists; reflexivity | split].
  all: try (intros v; discriminate).
  all: intros k handler;
    match goal with
    | |- exists _, try_catch_cstring (bind (_, Raise (ExCString ?n)) _) _ = _ =>
        exists n; cbn; destruct (handler n); reflexivity
    end.
Qed.

(** *** C1, C2, C10: what is handed to the runtime *)

Lemma merged_module_list (units : list Z) :
  Z.of_nat (List.length units) + 1 <= INT32_MAX ->
  module_list
    (entries_from (__modules_a ++ units ++ __modules_z) 0)
    (to_int32 (Z.of_nat (List.length __modules_a + List.length units) - 0))
  = nullptr :: units.
Proof.
  intros Hlen. unfold module_list, entries_from, __modules_a, __modules_z.
  cbn [List.length Nat.add Z.to_nat skipn app].
  rewrite Z.sub_0_r, to_int32_small.
  - rewrite Nat2Z.id. cbn [firstn]. f_equal.
    rewrite firstn_app, Nat.sub_diag, firstn_all. cbn [firstn].
    apply app_nil_r.
  - unfold in_int32, INT32_MIN. unfold INT32_MAX in *. lia.
Qed.

(** C1, refuted as stated: with one contributing unit, whose descriptor is
    at 8192, the list handed to [InitializeModules] has two entries, the
    null placeholder of the leading bookend and the descriptor. *)
Lemma section_merge_delivers_leading_sentinel :
  delivered_modules
    (fst (main Unix (env_ok managed_returns_42) (link Unix [8192] 0 0) 1 0))
  = Some [nullptr; 8192] /\
  delivered_modules
    (fst (main Unix (env_ok managed_returns_42) (link Unix [8192] 0 0) 1 0))
  <> Some [8192] /\
  List.length [nullptr; 8192] <> List.length [8192].
Proof.
  split; [reflexivity | split]; [| discriminate].
  intros H. vm_compute in H. discriminate H.
Qed.

(** C1, amended: under the section-merge strategy, for N contributing units
    (N + 1 within [int]), [main] hands to [InitializeModules] the leading
    bookend and the distance between the bookends, so the list read
    through them has N + 1 entries: the null placeholder of the leading
    bookend, then the N descriptors in link order, each once; the
    placeholder of the trailing bookend is not part of it. *)
Theorem section_merge_module_list (p : platform) (units : list Z)
    (code_a code_z : Z) (e : env) (argc argv : Z) :
  p <> Apple ->
  Z.of_nat (List.length units) + 1 <= INT32_MAX ->
  forallb snd (bootstrap_steps p e (link p units code_a code_z)) = true ->
  deliver_modules p (link p units code_a code_z) =
    ([EvInitializeModules (nullptr :: units ++ [nullptr])
        (Z.of_nat (List.length units) + 1)],
     Normal tt) /\
  delivered_modules (fst (main p e (link p units code_a code_z) argc argv))
    = Some (nullptr :: units) /\
  List.length (nullptr :: units) = S (List.length units) /\
  non_null (nullptr :: units) = non_null units.
Proof.
  intros Hp Hlen Hsteps.
  assert (Hcount :
    to_int32 (Z.of_nat (List.length __modules_a + List.length units) - 0)
    = Z.of_nat (List.length units) + 1).
  { unfold __modules_a. cbn [List.length Nat.add].
    rewrite Z.sub_0_r, to_int32_small.
    - lia.
    - unfold in_int32, INT32_MIN. unfold INT32_MAX in *. lia. }
  assert (Hdel : deliver_modules p (link p units code_a code_z) =
    ([EvInitializeModules (nullptr :: units ++ [nullptr])
        (Z.of_nat (List.length units) + 1)], Normal tt)).
  { destruct p; [| congruence |];
      unfold deliver_modules, link, call;
      cbn [modules_section addr_modules_a addr_modules_z];
      rewrite Hcount; reflexivity. }
  split; [exact Hdel | split; [| split; reflexivity]].
  rewrite main_bootstrap_success; [| assumption | now rewrite Hdel].
  rewrite Hdel. cbn [fst].
  assert (Hlist :
    module_list (nullptr :: units ++ [nullptr])
      (Z.of_nat (List.length units) + 1) = nullptr :: units).
  { rewrite <- Hcount. now apply merged_module_list. }
  destruct (__managed__Main e argc argv) as [mt o].
  unfold bootstrap_steps.
  destruct p; [| congruence |];
    destruct o as [rv | [s |] | c |]; cbn [after_managed fst];
    unfold delivered_modules; cbn; now rewrite Hlist.
Qed.

Lemma section_merge_module_list_witness :
  delivered_modules
    (fst (main Unix (env_ok managed_returns_42)
            (link Unix [8192; 12288] 0 0) 1 0))
  = Some [nullptr; 8192; 12288].
Proof.
  apply (section_merge_module_list Unix [8192; 12288] 0 0
           (env_ok managed_returns_42) 1 0).
  - discriminate.
  - unfold INT32_MAX. simpl. lia.
  - reflexivity.
Defined.

(** C2, refuted as stated: the table [wmain] registers has four entries,
    not the eight of the order given for it, and starts with
    [GetRuntimeException] and [FailFast]. *)
Lemma callback_table_differs_from_spec_order :
  nth_error
    (fst (main Windows (env_ok managed_returns_42)
            (link Windows [8192] 4198400 4202496) 1 0)) 3
  = Some (EvRhpRegisterCoffModule 4194304 4198400 4096
            [Some GetRuntimeException; Some FailFast; None; None] 4) /\
  c_classlibFunctions <> spec_callback_table /\
  List.length c_classlibFunctions = 4%nat /\
  List.length spec_callback_table = 8%nat.
Proof.
  split; [reflexivity | split; [discriminate | split; reflexivity]].
Qed.

(** C2, amended: on [Windows], once [__initialize_runtime] has succeeded,
    [wmain] registers the managed code range together with the callback
    table [GetRuntimeException], [FailFast], unset, unset, in this order,
    and the registered callback count, 4, is the length of that table. *)
Theorem callback_table_registered (e : env) (img : image) (argc argv : Z) :
  snd (__initialize_runtime e) = Normal 0 ->
  nth_error (fst (main Windows e img argc argv)) 3 =
    Some (EvRhpRegisterCoffModule
            (GetModuleHandleW e NULL) (__managedcode_a img)
            (to_uint32 (__managedcode_z img - __managedcode_a img))
            [Some GetRuntimeException; Some FailFast; None; None] 4) /\
  c_classlibFunctions =
    [Some GetRuntimeException; Some FailFast; None; None] /\
  _countof c_classlibFunctions = 4 /\
  _countof c_classlibFunctions = Z.of_nat (List.length c_classlibFunctions).
Proof.
  intros Hinit. split; [| repeat split].
  revert Hinit.
  unfold main, __initialize_runtime, register_coff_module, call_managed_main.
  unfold_env e.
  destruct pal; cbn; [| discriminate].
  destruct (rtu NULL DLL_PROCESS_ATTACH NULL =? 0); cbn; [discriminate |].
  destruct (scan =? 0); cbn; [discriminate |].
  intros _.
  destruct (coff _ _ _ _ _); cbn; [| reflexivity].
  destruct (mm argc argv) as [mt [rv | [s |] | c |]]; reflexivity.
Qed.

Lemma callback_table_registered_witness :
  nth_error
    (fst (main Windows (env_ok managed_returns_42)
            (link Windows [8192] 4198400 4202496) 1 0)) 3
  = Some (EvRhpRegisterCoffModule 4194304 4198400 4096
            [Some GetRuntimeException; Some FailFast; None; None] 4).
Proof.
  apply (callback_table_registered (env_ok managed_returns_42)
           (link Windows [8192] 4198400 4202496) 1 0).
  reflexivity.
Defined.

(** C10: under active registration [main] reads element 0 of
    [__registeredModules] whatever its size; the read is within bounds
    exactly when some unit registered a descriptor before [main]. With no
    registration the read is out of bounds and [main] gets no further;
    otherwise the registered list and its size are handed to
    [InitializeModules]. *)
Theorem active_registration_needs_a_module (units : list Z)
    (code_a code_z : Z) (e : env) (argc argv : Z) :
  forallb snd (bootstrap_steps Apple e (link Apple units code_a code_z))
    = true ->
  __registeredModules (link Apple units code_a code_z) = units /\
  (vector_index (__registeredModules (link Apple units code_a code_z)) 0
     = None <-> units = []) /\
  (snd (deliver_modules Apple (link Apple units code_a code_z)) = Undefined
     <-> units = []) /\
  match units with
  | [] =>
      deliver_modules Apple (link Apple units code_a code_z)
        = ([], Undefined) /\
      main Apple e (link Apple units code_a code_z) argc argv
        = ([EvPalInit; EvRtuDllMain NULL DLL_PROCESS_ATTACH NULL;
            EvRhpEnableConservativeStackReporting], Undefined)
  | _ :: _ =>
      deliver_modules Apple (link Apple units code_a code_z)
        = ([EvInitializeModules units
              (to_int32 (Z.of_nat (List.length units)))], Normal tt)
  end.
Proof.
  intros Hsteps.
  assert (Hreg : __registeredModules (link Apple units code_a code_z) = units)
    by apply static_init_units.
  unfold deliver_modules. rewrite Hreg.
  split; [reflexivity | split; [| split]].
  - destruct units; cbn; split; congruence.
  - destruct units; cbn; split; congruence.
  - destruct units as [| u rest].
    + split; [reflexivity |].
      rewrite main_delivery_undefined; [reflexivity | assumption |].
      unfold deliver_modules. rewrite Hreg. discriminate.
    + reflexivity.
Qed.

Lemma active_registration_needs_a_module_witness :
  main Apple (env_ok managed_returns_42) (link Apple [] 0 0) 1 0
  = ([EvPalInit; EvRtuDllMain 0 1 0; EvRhpEnableConservativeStackReporting],
     Undefined).
Proof.
  apply (active_registration_needs_a_module [] 0 0
           (env_ok managed_returns_42) 1 0).
  reflexivity.
Defined.

(** *** Further properties: the runtime initializer *)

(** X1: [__initialize_runtime] returns 0 or -1 and nothing else; it returns
    0 exactly when [PalInit], [RtuDllMain] and
    [RhpEnableConservativeStackReporting] all succeed. It calls [PalInit]
    first, [RtuDllMain] only after [PalInit] succeeded, and
    [RhpEnableConservativeStackReporting] only after both succeeded. *)
Theorem initialize_runtime_result (e : env) :
  (snd (__initialize_runtime e) = Normal 0 \/
   snd (__initialize_runtime e) = Normal (-1)) /\
  (snd (__initialize_runtime e) = Normal 0 <->
     PalInit e = true /\
     RtuDllMain e NULL DLL_PROCESS_ATTACH NULL <> 0 /\
     RhpEnableConservativeStackReporting e <> 0) /\
  hd_error (fst (__initialize_runtime e)) = Some EvPalInit /\
  (In (EvRtuDllMain NULL DLL_PROCESS_ATTACH NULL) (fst (__initialize_runtime e))
     <-> PalInit e = true) /\
  (In EvRhpEnableConservativeStackReporting (fst (__initialize_runtime e))
     <-> PalInit e = true /\
         RtuDllMain e NULL DLL_PROCESS_ATTACH NULL <> 0).
Proof.
  unfold __initialize_runtime. unfold_env e.
  destruct pal; cbn;
    [| intuition (try discriminate; try congruence)].
  destruct (Z.eqb_spec (rtu NULL DLL_PROCESS_ATTACH NULL) 0) as [Hr | Hr]; cbn;
    [intuition (try discriminate; try congruence) |].
  destruct (Z.eqb_spec scan 0) as [Hs | Hs]; cbn;
    intuition (try discriminate; try congruence).
Qed.

(** *** Further properties: the layout accessors *)

Lemma print_loop_seq (m : memory) (n : nat) :
  forall pString index length,
    Z.to_nat (length - index) = n ->
    print_loop m pString index length =
    map (fun i => EvPutwchar
                    (load_uint16 m (pString + sizeof_uint16 * Z.of_nat i)))
      (seq 0 n).
Proof.
  induction n as [| k IH]; intros pString index length Hn.
  - apply print_loop_done. lia.
  - rewrite print_loop_step by lia.
    cbn [seq map]. rewrite Z.mul_0_r, Z.add_0_r. f_equal.
    rewrite (IH (pString + sizeof_uint16) (index + 1) length) by lia.
    rewrite <- seq_shift, map_map.
    apply map_ext. intros i. do 2 f_equal.
    rewrite Nat2Z.inj_succ. lia.
Qed.

(** X2: whatever the memory holds, [PrintStringObject] emits as many
    characters as the length field read as [int32_t] says, none when it is
    zero or negative; the i-th character is the [uint16_t] at offset
    pointer-size + 4 + 2 i of the object. It emits nothing else and
    returns. *)
Theorem string_walk_follows_length_field (psz : Z) (m : memory) (p : addr) :
  PrintStringObject psz m p =
    (map (fun i => EvPutwchar
                     (load_uint16 m
                        (p + psz + sizeof_int32 + sizeof_uint16 * Z.of_nat i)))
       (seq 0 (Z.to_nat (load_int32 m (p + psz)))),
     Normal tt) /\
  List.length (fst (PrintStringObject psz m p))
    = Z.to_nat (load_int32 m (p + psz)) /\
  forallb is_putwchar (fst (PrintStringObject psz m p)) = true.
Proof.
  assert (H : PrintStringObject psz m p =
    (map (fun i => EvPutwchar
                     (load_uint16 m
                        (p + psz + sizeof_int32 + sizeof_uint16 * Z.of_nat i)))
       (seq 0 (Z.to_nat (load_int32 m (p + psz)))),
     Normal tt)).
  { unfold PrintStringObject, emit. f_equal.
    apply print_loop_seq. f_equal. lia. }
  rewrite H. cbn [fst]. split; [reflexivity | split].
  - now rewrite length_map, length_seq.
  - rewrite forallb_forall. intros ev Hev.
    apply in_map_iff in Hev. destruct Hev as (i & <- & _). reflexivity.
Qed.

(** X3: [PrintStringObject] reads the length field and the code units the
    length field announces, and no other byte: two memories that agree on
    these bytes give the same output. *)
Theorem string_walk_frame (psz : Z) (m1 m2 : memory) (p : addr) :
  (forall x,
      p + psz <= x <
        p + psz + sizeof_int32
          + sizeof_uint16 * Z.max 0 (load_int32 m1 (p + psz)) ->
      m1 x = m2 x) ->
  PrintStringObject psz m1 p = PrintStringObject psz m2 p.
Proof.
  intros Hagree. unfold sizeof_int32, sizeof_uint16 in Hagree.
  assert (Hlen : load_int32 m2 (p + psz) = load_int32 m1 (p + psz)).
  { unfold load_int32. f_equal. symmetry. apply load_le_ext.
    intros x Hx. apply Hagree. simpl in Hx. lia. }
  unfold PrintStringObject, emit. f_equal. rewrite Hlen.
  rewrite (print_loop_seq m1 (Z.to_nat (load_int32 m1 (p + psz))))
    by (f_equal; lia).
  rewrite (print_loop_seq m2 (Z.to_nat (load_int32 m1 (p + psz))))
    by (f_equal; lia).
  apply map_ext_in. intros i Hi. apply in_seq in Hi. f_equal.
  unfold load_uint16. apply load_le_ext.
  intros x Hx. apply Hagree. unfold sizeof_int32, sizeof_uint16 in *.
  change (Z.of_nat 2) with 2 in Hx.
  set (L := load_int32 m1 (p + psz)) in *. clearbody L. unfold addr in *. lia.
Qed.

Lemma string_walk_frame_witness :
  PrintStringObject 8 abc_memory 4096 =
  PrintStringObject 8 (fun x => if x =? 4114 then xff else abc_memory x) 4096.
Proof.
  apply (string_walk_frame 8 abc_memory
           (fun x => if x =? 4114 then xff else abc_memory x) 4096).
  intros x Hx.
  replace (load_int32 abc_memory (4096 + 8)) with 3 in Hx
    by (vm_compute; reflexivity).
  unfold sizeof_int32, sizeof_uint16 in Hx.
  destruct (Z.eqb_spec x 4114) as [Heq | Hne]; [lia | reflexivity].
Defined.

(** X4: with pointers of 4 bytes or more, [get_EEType] and
    [GetArrayLength] read only bytes below [GetArrayData]: whatever is
    stored in the element data leaves the type descriptor and the length
    of the array as they were. *)
Theorem array_header_frame (psz : Z) (m1 m2 : memory) (this : addr) :
  4 <= psz ->
  (forall x, this <= x < GetArrayData psz this -> m1 x = m2 x) ->
  GetArrayLength psz m1 this = GetArrayLength psz m2 this /\
  get_EEType psz m1 this = get_EEType psz m2 this.
Proof.
  intros Hpsz Hagree. unfold GetArrayData in Hagree. split.
  - unfold GetArrayLength, load_int32. f_equal. apply load_le_ext.
    intros x Hx. apply Hagree. change (Z.of_nat 4) with 4 in Hx. lia.
  - unfold get_EEType, load_ptr. apply load_le_ext.
    intros x Hx. apply Hagree. rewrite Z2Nat.id in Hx by lia. lia.
Qed.

Lemma array_header_frame_witness :
  GetArrayLength 8 array5_memory 4096 =
    GetArrayLength 8 (store_le array5_memory (GetArrayData 8 4096) 8 12345) 4096 /\
  get_EEType 8 array5_memory 4096 =
    get_EEType 8 (store_le array5_memory (GetArrayData 8 4096) 8 12345) 4096.
Proof.
  apply (array_header_frame 8 array5_memory
           (store_le array5_memory (GetArrayData 8 4096) 8 12345) 4096).
  - lia.
  - intros x Hx. symmetry. apply store_le_outside. left. apply Hx.
Defined.

(** *** Further properties: string literals of the C++ code generator *)

Lemma copy_loop_step (cs : bool) (m : memory) (p : addr) (string : list byte)
    (i len : Z) :
  i < len ->
  CppCodegen.copy_loop cs m p string i len =
  CppCodegen.copy_loop cs
    (store_uint16 m (p + sizeof_uint16 * i)
       (CppCodegen.char_to_uint16 cs (CppCodegen.char_at string i)))
    p string (i + 1) len.
Proof.
  intros Hlt. rewrite CppCodegen.copy_loop_equation_1.
  destruct (Z_lt_dec i len); [reflexivity | lia].
Qed.

Lemma copy_loop_done (cs : bool) (m : memory) (p : addr) (string : list byte)
    (i len : Z) :
  len <= i -> CppCodegen.copy_loop cs m p string i len = m.
Proof.
  intros Hge. rewrite CppCodegen.copy_loop_equation_1.
  destruct (Z_lt_dec i len); [lia | reflexivity].
Qed.

(** The loop stores the converted bytes [i], ..., [len - 1] one after the
    other. *)
Lemma copy_loop_store_units (cs : bool) (p : addr) (string : list byte)
    (n : nat) :
  forall m i len,
    Z.to_nat (len - i) = n ->
    CppCodegen.copy_loop cs m p string i len =
    store_units m (p + sizeof_uint16 * i)
      (map (fun k => CppCodegen.char_to_uint16 cs
                       (CppCodegen.char_at string (i + Z.of_nat k)))
         (seq 0 n)).
Proof.
  unfold sizeof_uint16.
  induction n as [| k IH]; intros m i len Hn.
  - apply copy_loop_done. lia.
  - rewrite copy_loop_step by lia. rewrite (IH _ (i + 1) len) by lia.
    cbn [seq map store_units]. rewrite Z.add_0_r.
    unfold sizeof_uint16.
    replace (p + 2 * (i + 1)) with (p + 2 * i + 2) by lia.
    f_equal. rewrite <- seq_shift, map_map.
    apply map_ext. intros j. do 2 f_equal.
    rewrite Nat2Z.inj_succ. lia.
Qed.

Lemma strlen_nat_le (s : list byte) :
  (CppCodegen.strlen_nat s <= List.length s)%nat.
Proof.
  induction s as [| b rest IH]; simpl; [lia |].
  destruct (byte_to_Z b =? 0); simpl; lia.
Qed.

Lemma map_nth_seq_firstn {A B} (f : A -> B) (d : A) (s : list A) :
  forall n, (n <= List.length s)%nat ->
    map (fun k => f (nth k s d)) (seq 0 n) = map f (firstn n s).
Proof.
  induction s as [| a rest IH]; intros n Hn.
  - simpl in Hn. now replace n with 0%nat by lia.
  - destruct n as [| k]; [reflexivity |].
    cbn [seq map firstn nth]. f_equal.
    rewrite <- seq_shift, map_map. apply IH. simpl in Hn. lia.
Qed.

Lemma char_to_uint16_range (cs : bool) (b : byte) :
  0 <= CppCodegen.char_to_uint16 cs b < 65536.
Proof.
  unfold CppCodegen.char_to_uint16. apply Z.mod_pos_bound. lia.
Qed.

Lemma byte_to_Z_range (b : byte) : 0 <= byte_to_Z b < 256.
Proof.
  unfold byte_to_Z. pose proof (Byte.to_N_bounded b). lia.
Qed.

(** What [__load_string_literal] leaves in memory is a string object with
    the converted bytes of the literal up to its first NUL. *)
Lemma load_string_literal_string_at (psz : Z) (cs : bool)
    (RhNewArray : memory -> Z -> Z -> memory * addr) (String_MT : Z)
    (m m1 : memory) (string : list byte) (pString : addr) :
  CppCodegen.strlen string <= INT32_MAX ->
  RhNewArray m String_MT (CppCodegen.strlen string) = (m1, pString) ->
  array_at psz m1 pString (CppCodegen.strlen string) ->
  snd (CppCodegen.__load_string_literal psz cs RhNewArray String_MT m string)
    = pString /\
  string_at psz
    (fst (CppCodegen.__load_string_literal psz cs RhNewArray String_MT m string))
    pString
    (map (CppCodegen.char_to_uint16 cs)
       (firstn (CppCodegen.strlen_nat string) string)).
Proof.
  intros Hlen Hnew Hat.
  assert (Hin : in_int32 (CppCodegen.strlen string)).
  { unfold in_int32, INT32_MIN, CppCodegen.strlen in *. lia. }
  unfold CppCodegen.__load_string_literal.
  rewrite to_int32_small by assumption. rewrite Hnew. cbn [fst snd].
  split; [reflexivity |].
  rewrite (copy_loop_store_units cs _ string (CppCodegen.strlen_nat string))
    by (unfold CppCodegen.strlen; lia).
  rewrite Z.mul_0_r, Z.add_0_r.
  assert (Hunits :
    map (fun k => CppCodegen.char_to_uint16 cs
                    (CppCodegen.char_at string (0 + Z.of_nat k)))
      (seq 0 (CppCodegen.strlen_nat string))
    = map (CppCodegen.char_to_uint16 cs)
        (firstn (CppCodegen.strlen_nat string) string)).
  { rewrite <- (map_nth_seq_firstn _ x00) by apply strlen_nat_le.
    apply map_ext. intros k. unfold CppCodegen.char_at.
    now rewrite Z.add_0_l, Nat2Z.id. }
  rewrite Hunits. split.
  - rewrite length_map, length_firstn, Nat.min_l by apply strlen_nat_le.
    unfold load_int32.
    rewrite (load_le_ext _ m1).
    + rewrite (load_le_bytes 4 m1 (pString + psz) (CppCodegen.strlen string)).
      * now apply to_int32_of_uint32.
      * intros k Hk. apply Hat. unfold sizeof_int32.
        change (Z.of_nat 4) with 4 in Hk. lia.
    + intros x Hx. apply store_units_below. unfold sizeof_int32.
      change (Z.of_nat 4) with 4 in Hx. lia.
  - intros i u Hi. apply load_store_units; [| assumption].
    apply Forall_forall. intros v Hv. apply in_map_iff in Hv.
    destruct Hv as (b & <- & _). apply char_to_uint16_range.
Qed.

(** X5: a literal loaded with [__load_string_literal] prints back with
    [PrintStringObject]: provided the literal is at most [INT32_MAX] bytes
    long and [RhNewArray] returns an object whose length field holds the
    requested length, the characters printed are the bytes of the literal
    before its first NUL, each converted from [char] to [uint16_t], and the
    length read from the object is [strlen] of the literal. *)
Theorem load_string_literal_prints_back (psz : Z) (cs : bool)
    (RhNewArray : memory -> Z -> Z -> memory * addr) (String_MT : Z)
    (m m1 : memory) (string : list byte) (pString : addr) :
  CppCodegen.strlen string <= INT32_MAX ->
  RhNewArray m String_MT (CppCodegen.strlen string) = (m1, pString) ->
  array_at psz m1 pString (CppCodegen.strlen string) ->
  PrintStringObject psz
    (fst (CppCodegen.__load_string_literal psz cs RhNewArray String_MT m string))
    (snd (CppCodegen.__load_string_literal psz cs RhNewArray String_MT m string))
  = (map EvPutwchar
       (map (CppCodegen.char_to_uint16 cs)
          (firstn (CppCodegen.strlen_nat string) string)),
     Normal tt) /\
  load_int32
    (fst (CppCodegen.__load_string_literal psz cs RhNewArray String_MT m string))
    (pString + psz)
  = CppCodegen.strlen string.
Proof.
  intros Hlen Hnew Hat.
  destruct (load_string_literal_string_at psz cs RhNewArray String_MT
              m m1 string pString Hlen Hnew Hat) as [-> [Hl Hu]].
  split.
  - unfold PrintStringObject, emit. f_equal. rewrite Hl.
    apply print_loop_units; [lia | exact Hu].
  - rewrite Hl, length_map, length_firstn, Nat.min_l by apply strlen_nat_le.
    reflexivity.
Qed.

Lemma load_string_literal_prints_back_witness :
  PrintStringObject 8
    (fst (CppCodegen.__load_string_literal 8 true sample_RhNewArray 0
            zero_memory [x61; x62; x00; x63]))
    (snd (CppCodegen.__load_string_literal 8 true sample_RhNewArray 0
            zero_memory [x61; x62; x00; x63]))
  = ([EvPutwchar 97; EvPutwchar 98], Normal tt).
Proof.
  apply (load_string_literal_prints_back 8 true sample_RhNewArray 0
           zero_memory (write_array_header 8 zero_memory 4096 0 2)
           [x61; x62; x00; x63] 4096).
  - unfold INT32_MAX. vm_compute. discriminate.
  - reflexivity.
  - intros k Hk. unfold sizeof_int32 in Hk.
    assert (Hcases : k = 0 \/ k = 1 \/ k = 2 \/ k = 3) by lia.
    destruct Hcases as [-> | [-> | [-> | ->]]]; vm_compute; reflexivity.
Defined.

Lemma strlen_nat_no_nul (s : list byte) :
  Forall (fun b => 0 < byte_to_Z b) s ->
  CppCodegen.strlen_nat s = List.length s.
Proof.
  induction 1 as [| b rest Hb _ IH]; simpl; [reflexivity |].
  destruct (Z.eqb_spec (byte_to_Z b) 0); [lia | now rewrite IH].
Qed.

(** X6: for a literal of ASCII bytes (none NUL, all below 128, at most
    [INT32_MAX] of them) the string object made by [__load_string_literal]
    prints exactly the bytes of the literal, whether [char] is signed or
    not. *)
Theorem load_ascii_literal_prints_same (psz : Z) (cs : bool)
    (RhNewArray : memory -> Z -> Z -> memory * addr) (String_MT : Z)
    (m m1 : memory) (string : list byte) (pString : addr) :
  Forall (fun b => 0 < byte_to_Z b < 128) string ->
  Z.of_nat (List.length string) <= INT32_MAX ->
  RhNewArray m String_MT (Z.of_nat (List.length string)) = (m1, pString) ->
  array_at psz m1 pString (Z.of_nat (List.length string)) ->
  PrintStringObject psz
    (fst (CppCodegen.__load_string_literal psz cs RhNewArray String_MT m string))
    (snd (CppCodegen.__load_string_literal psz cs RhNewArray String_MT m string))
  = (map EvPutwchar (map byte_to_Z string), Normal tt).
Proof.
  intros Hascii Hlen Hnew Hat.
  assert (Hstrlen : CppCodegen.strlen_nat string = List.length string).
  { apply strlen_nat_no_nul. eapply Forall_impl; [| exact Hascii].
    intros b Hb. apply Hb. }
  assert (Hz : CppCodegen.strlen string = Z.of_nat (List.length string))
    by (unfold CppCodegen.strlen; now rewrite Hstrlen).
  rewrite <- Hz in Hlen, Hnew, Hat.
  destruct (load_string_literal_string_at psz cs RhNewArray String_MT
              m m1 string pString Hlen Hnew Hat) as [-> [Hl Hu]].
  rewrite Hstrlen, firstn_all in Hl, Hu.
  assert (Hconv : map (CppCodegen.char_to_uint16 cs) string
                  = map byte_to_Z string).
  { apply map_ext_in. intros b Hb.
    pose proof (proj1 (Forall_forall _ _) Hascii b Hb) as Hr. cbv beta in Hr.
    unfold CppCodegen.char_to_uint16.
    destruct (Z.leb_spec 128 (byte_to_Z b)); [lia |].
    rewrite andb_false_r. apply Z.mod_small. lia. }
  rewrite Hconv in Hl, Hu.
  unfold PrintStringObject, emit. f_equal. rewrite Hl.
  apply print_loop_units; [lia | exact Hu].
Qed.

Lemma load_ascii_literal_prints_same_witness :
  PrintStringObject 8
    (fst (CppCodegen.__load_string_literal 8 false sample_RhNewArray 0
            zero_memory abc_literal))
    (snd (CppCodegen.__load_string_literal 8 false sample_RhNewArray 0
            zero_memory abc_literal))
  = ([EvPutwchar 97; EvPutwchar 98; EvPutwchar 99], Normal tt).
Proof.
  apply (load_ascii_literal_prints_same 8 false sample_RhNewArray 0
           zero_memory (write_array_header 8 zero_memory 4096 0 3)
           abc_literal 4096).
  - repeat constructor.
  - unfold INT32_MAX. vm_compute. discriminate.
  - reflexivity.
  - intros k Hk. unfold sizeof_int32 in Hk.
    assert (Hcases : k = 0 \/ k = 1 \/ k = 2 \/ k = 3) by lia.
    destruct Hcases as [-> | [-> | [-> | ->]]]; vm_compute; reflexivity.
Defined.

(** *** Further properties: wrappers of the C++ code generator *)

Lemma to_int32_add_mul (v k : Z) : to_int32 (v + k * 2 ^ 32) = to_int32 v.
Proof.
  unfold to_int32.
  replace (v + k * 2 ^ 32 + 2 ^ 31) with (v + 2 ^ 31 + k * 2 ^ 32) by lia.
  now rewrite Z.mod_add by lia.
Qed.

Lemma to_int32_high (v : Z) :
  2 ^ 31 <= v < 2 ^ 32 -> to_int32 v = v - 2 ^ 32.
Proof.
  intros Hv. replace v with (v - 2 ^ 32 + 1 * 2 ^ 32) at 1 by lia.
  rewrite to_int32_add_mul. apply to_int32_small.
  unfold in_int32, INT32_MIN, INT32_MAX. lia.
Qed.



(** X8: [__stelem_ref] and [__ldelema_ref] hand their [unsigned] index to
    the runtime as an [int]: an index up to [INT32_MAX] arrives unchanged,
    a larger one arrives as the negative number 2^32 below it; the array
    and the third argument are passed through. *)
Theorem element_index_passed_as_int {R} (RhpStelemRef : Z -> Z -> Z -> R)
    (RhpLdelemaRef : Z -> Z -> Z -> R) (pArray idx x : Z) :
  0 <= idx < 2 ^ 32 ->
  CppCodegen.__stelem_ref RhpStelemRef pArray idx x
    = RhpStelemRef pArray (if idx <=? INT32_MAX then idx else idx - 2 ^ 32) x /\
  CppCodegen.__ldelema_ref RhpLdelemaRef pArray idx x
    = RhpLdelemaRef pArray (if idx <=? INT32_MAX then idx else idx - 2 ^ 32) x.
Proof.
  intros Hidx. unfold CppCodegen.__stelem_ref, CppCodegen.__ldelema_ref.
  assert (Hconv :
    to_int32 idx = if idx <=? INT32_MAX then idx else idx - 2 ^ 32).
  { unfold INT32_MAX. destruct (Z.leb_spec idx (2 ^ 31 - 1)).
    - apply to_int32_small. unfold in_int32, INT32_MIN, INT32_MAX. lia.
    - apply to_int32_high. lia. }
  now rewrite Hconv.
Qed.

Lemma element_index_passed_as_int_witness :
  CppCodegen.__stelem_ref (fun a i o => (a, i, o)) 4096 4294967295 8192
    = (4096, -1, 8192) /\
  CppCodegen.__ldelema_ref (fun a i t => (a, i, t)) 4096 4294967295 8192
    = (4096, -1, 8192).
Proof.
  apply (element_index_passed_as_int (fun a i o => (a, i, o))
           (fun a i t => (a, i, t)) 4096 4294967295 8192).
  lia.
Defined.


(** *** Further properties: runs of [main] *)

(** X10: when the managed entry point, after any output of its own, calls
    [__fail_fast] or one of the three diagnostic stubs, nothing after that
    call runs: [main] prints the fault report with the name the stand-in
    throws and returns -1. *)
Theorem stub_in_managed_code_ends_main (p : platform) (e : env) (img : image)
    (argc argv : Z) (out : trace) (stub : M unit) (name : string)
    (k : unit -> M Z) :
  forallb snd (bootstrap_steps p e img) = true ->
  snd (deliver_modules p img) = Normal tt ->
  In (stub, name) fault_stubs ->
  __managed__Main e argc argv = bind (emit out) (fun _ => bind stub k) ->
  main p e img argc argv =
  ((map fst (bootstrap_steps p e img) ++ fst (deliver_modules p img)
      ++ [EvManagedMain argc argv]) ++ out ++ fault_report name,
   Normal (-1)).
Proof.
  intros Hsteps Hdel Hin Hmm.
  rewrite main_bootstrap_success by assumption. rewrite Hmm.
  unfold fault_stubs in Hin. cbn [In] in Hin.
  destruct Hin as [[= <- <-] | [[= <- <-] | [[= <- <-] | [[= <- <-] | []]]]];
    cbn; now rewrite app_nil_r.
Qed.

Lemma stub_in_managed_code_ends_main_witness :
  main Unix
    (env_ok (fun _ _ => emit [EvPrintf "working"] ;;; __fail_fast ;;; ret 0))
    (link Unix [8192] 0 0) 1 0 =
  ([ EvPalInit; EvRtuDllMain 0 1 0; EvRhpEnableConservativeStackReporting;
     EvInitializeModules [0; 8192; 0] 2; EvManagedMain 1 0;
     EvPrintf "working";
     EvPrintf ("Call to an unimplemented runtime method; execution cannot continue." ++ LF);
     EvPrintf ("Method: __fail_fast" ++ LF) ],
   Normal (-1)).
Proof.
  apply (stub_in_managed_code_ends_main Unix
           (env_ok (fun _ _ => emit [EvPrintf "working"] ;;; __fail_fast ;;; ret 0))
           (link Unix [8192] 0 0) 1 0 [EvPrintf "working"]
           __fail_fast "__fail_fast" (fun _ => ret 0)).
  - reflexivity.
  - reflexivity.
  - left. reflexivity.
  - reflexivity.
Defined.

(** X11: when the managed entry point, after any output of its own, calls
    [__not_yet_implemented], the process ends there with exit code -1:
    the trace ends with what [__not_yet_implemented] prints, the handler
    of [main] prints nothing and [main] does not return. *)
Theorem not_yet_implemented_in_managed_code_exits (p : platform) (e : env)
    (img : image) (argc argv : Z) (out : trace) (psz : Z) (m : memory)
    (pMethodName pMessage : addr) (k : unit -> M Z) :
  forallb snd (bootstrap_steps p e img) = true ->
  snd (deliver_modules p img) = Normal tt ->
  __managed__Main e argc argv =
    bind (emit out)
      (fun _ => bind (__not_yet_implemented psz m pMethodName pMessage) k) ->
  main p e img argc argv =
  ((map fst (bootstrap_steps p e img) ++ fst (deliver_modules p img)
      ++ [EvManagedMain argc argv]) ++ out
     ++ fst (__not_yet_implemented psz m pMethodName pMessage),
   Exited (-1)).
Proof.
  intros Hsteps Hdel Hmm.
  rewrite main_bootstrap_success by assumption. rewrite Hmm.
  pose proof (f_equal snd
                (not_yet_implemented_run psz m pMethodName pMessage)) as Hend.
  cbn [snd] in Hend.
  destruct (__not_yet_implemented psz m pMethodName pMessage) as [t o].
  cbn [snd] in Hend. subst o. reflexivity.
Qed.

Lemma not_yet_implemented_in_managed_code_exits_witness :
  snd (main Unix
         (env_ok (fun _ _ =>
                    emit [] ;;;
                    __not_yet_implemented 8 two_strings_memory 4096 8192 ;;;
                    ret 0))
         (link Unix [8192] 0 0) 1 0)
  = Exited (-1).
Proof.
  rewrite (not_yet_implemented_in_managed_code_exits Unix
             (env_ok (fun _ _ =>
                        emit [] ;;;
                        __not_yet_implemented 8 two_strings_memory 4096 8192 ;;;
                        ret 0))
             (link Unix [8192] 0 0) 1 0 [] 8 two_strings_memory 4096 8192
             (fun _ => ret 0)); reflexivity.
Defined.

(** X12: for a method name and a message that are well-formed string
    objects, [__not_yet_implemented] prints its two fixed lines, then
    [Method: ], the characters of the name, two line feeds, [Reason: ],
    the characters of the message and a line feed, and ends the process
    with exit code -1. *)
Theorem not_yet_implemented_output (psz : Z) (m : memory)
    (pMethodName pMessage : addr) (name message : list Z) :
  string_at psz m pMethodName name ->
  string_at psz m pMessage message ->
  __not_yet_implemented psz m pMethodName pMessage =
  ([ EvPrintf ("ILCompiler failed generating code for this method; execution cannot continue." ++ LF);
     EvPrintf ("This is likely because of a feature that is not yet implemented in the compiler." ++ LF);
     EvPrintf "Method: " ]
     ++ map EvPutwchar name
     ++ [ EvPrintf (LF ++ LF); EvPrintf "Reason: " ]
     ++ map EvPutwchar message
     ++ [ EvPrintf LF ],
   Exited (-1)).
Proof.
  intros [Hl1 Hu1] [Hl2 Hu2].
  rewrite not_yet_implemented_run.
  unfold PrintStringObject, emit. cbn [fst].
  rewrite Hl1, Hl2.
  rewrite (print_loop_units m name) by (lia || exact Hu1).
  rewrite (print_loop_units m message) by (lia || exact Hu2).
  reflexivity.
Qed.

Lemma not_yet_implemented_output_witness :
  __not_yet_implemented 8 two_strings_memory 4096 8192 =
  ([ EvPrintf ("ILCompiler failed generating code for this method; execution cannot continue." ++ LF);
     EvPrintf ("This is likely because of a feature that is not yet implemented in the compiler." ++ LF);
     EvPrintf "Method: ";
     EvPutwchar 70; EvPutwchar 111; EvPutwchar 111;
     EvPrintf (LF ++ LF); EvPrintf "Reason: ";
     EvPutwchar 98; EvPutwchar 97; EvPutwchar 100;
     EvPrintf LF ],
   Exited (-1)).
Proof.
  apply (not_yet_implemented_output 8 two_strings_memory 4096 8192
           [70; 111; 111] [98; 97; 100]).
  - split; [vm_compute; reflexivity |].
    intros i u Hi.
    destruct i as [| [| [| i]]]; simpl in Hi;
      try (injection Hi as <-; vm_compute; reflexivity).
    destruct i; discriminate.
  - split; [vm_compute; reflexivity |].
    intros i u Hi.
    destruct i as [| [| [| i]]]; simpl in Hi;
      try (injection Hi as <-; vm_compute; reflexivity).
    destruct i; discriminate.
Defined.


(** X14: under active registration, with at least one and at most
    [INT32_MAX] registered units, the list handed to [InitializeModules]
    is exactly the descriptors in registration order, with their number
    as the count, and no placeholder. *)
Theorem active_registration_module_list (units : list Z) (code_a code_z : Z)
    (e : env) (argc argv : Z) :
  units <> [] ->
  Z.of_nat (List.length units) <= INT32_MAX ->
  forallb snd (bootstrap_steps Apple e (link Apple units code_a code_z))
    = true ->
  deliver_modules Apple (link Apple units code_a code_z) =
    ([EvInitializeModules units (Z.of_nat (List.length units))], Normal tt) /\
  delivered_modules (fst (main Apple e (link Apple units code_a code_z) argc argv))
    = Some units.
Proof.
  intros Hne Hlen Hsteps.
  assert (Hdel : deliver_modules Apple (link Apple units code_a code_z) =
    ([EvInitializeModules units (Z.of_nat (List.length units))], Normal tt)).
  { unfold deliver_modules.
    replace (__registeredModules (link Apple units code_a code_z)) with units
      by (symmetry; apply static_init_units).
    destruct units as [| u rest]; [congruence |].
    unfold vector_index, size, call. cbn [nth_error].
    rewrite to_int32_small; [reflexivity |].
    unfold in_int32, INT32_MIN. unfold INT32_MAX in *. lia. }
  split; [exact Hdel |].
  rewrite main_bootstrap_success; [| assumption | now rewrite Hdel].
  rewrite Hdel. cbn [fst].
  assert (Hlist : module_list units (Z.of_nat (List.length units)) = units).
  { unfold module_list. rewrite Nat2Z.id. apply firstn_all. }
  destruct (__managed__Main e argc argv) as [mt o].
  unfold bootstrap_steps.
  destruct o as [rv | [s |] | c |]; cbn [after_managed fst];
    unfold delivered_modules; cbn; now rewrite Hlist.
Qed.

Lemma active_registration_module_list_witness :
  delivered_modules
    (fst (main Apple (env_ok managed_returns_42)
            (link Apple [8192; 12288] 0 0) 1 0))
  = Some [8192; 12288].
Proof.
  apply (active_registration_module_list [8192; 12288] 0 0
           (env_ok managed_returns_42) 1 0).
  - discriminate.
  - unfold INT32_MAX. simpl. lia.
  - reflexivity.
Defined.

(** X15: off [Windows], [main] neither asks for the module handle nor
    registers a code range: two environments that differ only in
    [GetModuleHandleW] and [RhpRegisterCoffModule] give the same run. *)
Theorem coff_registration_only_on_windows (p : platform) (e e' : env)
    (img : image) (argc argv : Z) :
  p <> Windows ->
  PalInit e = PalInit e' ->
  RtuDllMain e NULL DLL_PROCESS_ATTACH NULL
    = RtuDllMain e' NULL DLL_PROCESS_ATTACH NULL ->
  RhpEnableConservativeStackReporting e
    = RhpEnableConservativeStackReporting e' ->
  __managed__Main e argc argv = __managed__Main e' argc argv ->
  main p e img argc argv = main p e' img argc argv.
Proof.
  intros Hp Hpal Hrtu Hscan Hmm.
  unfold main, __initialize_runtime, register_coff_module, call_managed_main.
  rewrite Hpal, Hrtu, Hscan, Hmm.
  destruct p; [congruence | reflexivity | reflexivity].
Qed.

Lemma coff_registration_only_on_windows_witness :
  main Unix (env_ok managed_returns_42) (link Unix [8192] 0 0) 1 0 =
  main Unix
    {| PalInit := true;
       RtuDllMain := fun _ _ _ => 1;
       RhpEnableConservativeStackReporting := 1;
       GetModuleHandleW := fun _ => 0;
       RhpRegisterCoffModule := fun _ _ _ _ _ => false;
       __managed__Main := managed_returns_42 |}
    (link Unix [8192] 0 0) 1 0.
Proof.
  apply (coff_registration_only_on_windows Unix (env_ok managed_returns_42));
    [discriminate | reflexivity ..].
Defined.

(** X16: under section merging, whatever the linker left between the
    bookends, the list handed to [InitializeModules] starts at the leading
    bookend and has as many entries as lie from it up to the trailing
    bookend: entry i of the list is entry a + i of the section, and the
    entry at the trailing bookend is not part of it. *)
Theorem section_merge_delivers_between_bookends (p : platform) (img : image) :
  p <> Apple ->
  0 <= addr_modules_a img <= addr_modules_z img ->
  addr_modules_z img <= Z.of_nat (List.length (modules_section img)) ->
  addr_modules_z img - addr_modules_a img <= INT32_MAX ->
  exists modules count,
    deliver_modules p img = ([EvInitializeModules modules count], Normal tt) /\
    count = addr_modules_z img - addr_modules_a img /\
    module_list modules count =
      between_bookends (modules_section img)
        (addr_modules_a img) (addr_modules_z img) /\
    List.length (module_list modules count)
      = Z.to_nat (addr_modules_z img - addr_modules_a img) /\
    forall i : nat,
      nth_error (module_list modules count) i =
      if (Z.of_nat i <? addr_modules_z img - addr_modules_a img)
      then nth_error (modules_section img) (Z.to_nat (addr_modules_a img) + i)
      else None.
Proof.
  intros Hp Haz Hz Hmax.
  exists (entries_from (modules_section img) (addr_modules_a img)),
         (addr_modules_z img - addr_modules_a img).
  assert (Hcount : to_int32 (addr_modules_z img - addr_modules_a img)
                   = addr_modules_z img - addr_modules_a img).
  { apply to_int32_small. unfold in_int32, INT32_MIN.
    unfold INT32_MAX in *. lia. }
  split; [| split; [reflexivity | split; [reflexivity | split]]].
  - unfold deliver_modules, call. rewrite Hcount.
    destruct p; [reflexivity | congruence | reflexivity].
  - unfold module_list, entries_from.
    rewrite length_firstn, length_skipn. lia.
  - intros i. unfold module_list, entries_from.
    rewrite nth_error_firstn, nth_error_skipn.
    destruct (Nat.ltb_spec i (Z.to_nat (addr_modules_z img - addr_modules_a img)));
      destruct (Z.ltb_spec (Z.of_nat i) (addr_modules_z img - addr_modules_a img));
      try reflexivity; lia.
Qed.

Lemma section_merge_delivers_between_bookends_witness :
  exists modules count,
    deliver_modules Windows
      {| modules_section := [0; 0; 8192; 0; 12288; 0; 0];
         addr_modules_a := 1; addr_modules_z := 5;
         __registeredModules := [];
         __managedcode_a := 0; __managedcode_z := 0 |}
      = ([EvInitializeModules modules count], Normal tt) /\
    count = 4 /\
    module_list modules count = [0; 8192; 0; 12288].
Proof.
  destruct (section_merge_delivers_between_bookends Windows
              {| modules_section := [0; 0; 8192; 0; 12288; 0; 0];
                 addr_modules_a := 1; addr_modules_z := 5;
                 __registeredModules := [];
                 __managedcode_a := 0; __managedcode_z := 0 |})
    as (modules & count & Hdel & Hcount & Hlist & _).
  - discriminate.
  - simpl. lia.
  - simpl. lia.
  - unfold INT32_MAX. simpl. lia.
  - exists modules, count. repeat split; assumption.
Defined.
